(** * Translator_ADM1_ASM1: the ADM1 -> ASM1 translator block

    A shallow embedding of [watertap/unit_models/translator_adm1_asm1.py].

    The unit model declares Pyomo constraints: symbolic equations over the
    variables of two state blocks ([properties_in], [properties_out]) and
    over four mutable parameters.  A constraint is therefore embedded as a
    syntax tree ([expr], [relational]) and given its meaning by evaluation
    in the rationals: decimal literals of the source ([1e-6], [0.06 / 14])
    denote the exact rational they spell, and the rounding of the binary
    floats that Python computes with is outside the model.

    [initialize_build] is embedded in a state-and-exception monad over the
    operations the method calls on its collaborators (state blocks, solver,
    logger, [degrees_of_freedom]). *)

From Stdlib Require Import QArith Qabs ZArith List String Bool Lia.
From Stdlib Require Import Permutation FinFun.
Import ListNotations.

Local Open Scope Q_scope.

(** ** Symbolic expressions *)

(** An index of [flowsheet().time]. *)
Definition time := Z.

(** The two state blocks of the unit. *)
Inductive block := properties_in | properties_out.

(** The variables of a state block that the translator mentions:
    [blk.properties_out[t].flow_vol], ...,
    [blk.properties_in[t].conc_mass_comp["S_I"]]. *)
Inductive var :=
| flow_vol (b : block) (t : time)
| temperature (b : block) (t : time)
| pressure (b : block) (t : time)
| alkalinity (b : block) (t : time)
| conc_mass_comp (b : block) (t : time) (j : string).

(** The mutable [Param]s declared by [build]. *)
Inductive param := N_I | N_aa | N_bac | i_ec.

Inductive expr :=
| Num (q : Q)
| V (x : var)
| P (p : param)
| Add (a b : expr)
| Sub (a b : expr)
| Mul (a b : expr).

(** [lhs == rhs], the only relational expression the rules return. *)
Inductive relational := Equality (lhs rhs : expr).

Declare Scope expr_scope.
Delimit Scope expr_scope with E.
Bind Scope expr_scope with expr.
Infix "+" := Add : expr_scope.
Infix "-" := Sub : expr_scope.
Infix "*" := Mul : expr_scope.
Notation "a == b" := (Equality a b) : expr_scope.

(** Python's builtin [sum] over a generator: start from [0] and add the
    items left to right. *)
Definition py_sum (items : list expr) : expr :=
  fold_left Add items (Num 0).

(** ** Meaning of a constraint *)

Definition var_values := var -> Q.
Definition param_values := param -> Q.

Fixpoint eval (pv : param_values) (env : var_values) (e : expr) : Q :=
  match e with
  | Num q => q
  | V x => env x
  | P p => pv p
  | Add a b => eval pv env a + eval pv env b
  | Sub a b => eval pv env a - eval pv env b
  | Mul a b => eval pv env a * eval pv env b
  end.

Definition holds (pv : param_values) (env : var_values) (c : relational) : Prop :=
  match c with
  | Equality l r => eval pv env l == eval pv env r
  end.

(** Variables occurring in an expression, in order of occurrence. *)
Fixpoint expr_vars (e : expr) : list var :=
  match e with
  | Num _ | P _ => []
  | V x => [x]
  | Add a b | Sub a b | Mul a b => expr_vars a ++ expr_vars b
  end.

Fixpoint expr_params (e : expr) : list param :=
  match e with
  | Num _ | V _ => []
  | P p => [p]
  | Add a b | Sub a b | Mul a b => expr_params a ++ expr_params b
  end.

Definition relational_vars (c : relational) : list var :=
  match c with Equality l r => expr_vars l ++ expr_vars r end.

Definition relational_params (c : relational) : list param :=
  match c with Equality l r => expr_params l ++ expr_params r end.

Definition var_block (x : var) : block :=
  match x with
  | flow_vol b _ | temperature b _ | pressure b _ | alkalinity b _
  | conc_mass_comp b _ _ => b
  end.

(** ** Indexed components *)

(** A Pyomo indexed component: one entry per member of the index set, in
    the order of the set. *)
Definition indexed (I A : Type) := list (I * A).

Fixpoint getitem {I A} (eqb : I -> I -> bool) (c : indexed I A) (i : I) : option A :=
  match c with
  | [] => None
  | (k, a) :: rest => if eqb k i then Some a else getitem eqb rest i
  end.

Definition declare {I A} (index_set : list I) (rule : I -> A) : indexed I A :=
  map (fun i => (i, rule i)) index_set.

Definition time_comp_eqb (a b : time * string) : bool :=
  Z.eqb (fst a) (fst b) && String.eqb (snd a) (snd b).

(** ** The unit model *)

Module Translator.

Local Open Scope string_scope.
Local Open Scope expr_scope.

(** Initial values of the parameters. *)
Definition initialize (p : param) : Q :=
  match p with
  | N_I => (0.06 / 14)%Q
  | N_aa => 0.007%Q
  | N_bac => (0.08 / 14)%Q
  | i_ec => 0.06%Q
  end.

Definition eq_flow_vol_rule (t : time) : relational :=
  V (flow_vol properties_out t) == V (flow_vol properties_in t).

Definition eq_temperature_rule (t : time) : relational :=
  V (temperature properties_out t) == V (temperature properties_in t).

Definition eq_pressure_rule (t : time) : relational :=
  V (pressure properties_out t) == V (pressure properties_in t).

Definition eq_SI_conc (t : time) : relational :=
  V (conc_mass_comp properties_out t "S_I")
  == V (conc_mass_comp properties_in t "S_I").

Definition eq_XI_conc (t : time) : relational :=
  V (conc_mass_comp properties_out t "X_I")
  == V (conc_mass_comp properties_in t "X_I").

Definition readily_biodegradable : list string :=
  ["S_su"; "S_aa"; "S_fa"; "S_va"; "S_bu"; "S_pro"; "S_ac"].

Definition slowly_biodegradable : list string :=
  ["X_c"; "X_ch"; "X_pr"; "X_li"; "X_su"; "X_aa"; "X_fa"; "X_c4"; "X_pro";
   "X_ac"; "X_h2"].

Definition eq_SS_conc (t : time) : relational :=
  V (conc_mass_comp properties_out t "S_S")
  == py_sum (map (fun i => V (conc_mass_comp properties_in t i))
                 readily_biodegradable).

Definition eq_XS_conc (t : time) : relational :=
  V (conc_mass_comp properties_out t "X_S")
  == py_sum (map (fun i => V (conc_mass_comp properties_in t i))
                 slowly_biodegradable).

Definition eq_Snh_conc (t : time) : relational :=
  V (conc_mass_comp properties_out t "S_NH")
  == V (conc_mass_comp properties_in t "S_IN").

Definition eq_Snd_conc (t : time) : relational :=
  V (conc_mass_comp properties_out t "S_ND")
  == (V (conc_mass_comp properties_in t "S_I") * P N_I)
     + (V (conc_mass_comp properties_in t "S_I") * P N_aa).

Definition eq_Xnd_conc (t : time) : relational :=
  V (conc_mass_comp properties_out t "X_ND")
  == (P N_bac
      * (V (conc_mass_comp properties_in t "X_su")
         + V (conc_mass_comp properties_in t "X_aa")
         + V (conc_mass_comp properties_in t "X_fa")
         + V (conc_mass_comp properties_in t "X_c4")
         + V (conc_mass_comp properties_in t "X_pro")
         + V (conc_mass_comp properties_in t "X_ac")
         + V (conc_mass_comp properties_in t "X_h2")))
     + (V (conc_mass_comp properties_in t "X_I") * P N_I)
     + (V (conc_mass_comp properties_in t "X_c") * P N_I)
     + (V (conc_mass_comp properties_in t "X_pr") * P N_aa)
     - (V (conc_mass_comp properties_in t "X_I") * P N_I * P i_ec).

Definition return_Salk (t : time) : relational :=
  V (alkalinity properties_out t)
  == V (conc_mass_comp properties_in t "S_IC").

Definition zero_flow_components : list string :=
  ["X_BH"; "X_BA"; "X_P"; "S_O"; "S_NO"].

Definition return_zero_flow_comp (ti : time * string) : relational :=
  V (conc_mass_comp properties_out (fst ti) (snd ti)) == Num 1e-6.

(** The components that [build] attaches to the block. *)
Record TranslatorData := {
  blk_eq_flow_vol_rule : indexed time relational;
  blk_eq_temperature_rule : indexed time relational;
  blk_eq_pressure_rule : indexed time relational;
  blk_eq_SI_conc : indexed time relational;
  blk_eq_XI_conc : indexed time relational;
  blk_eq_SS_conc : indexed time relational;
  blk_eq_XS_conc : indexed time relational;
  blk_eq_Snh_conc : indexed time relational;
  blk_eq_Snd_conc : indexed time relational;
  blk_eq_Xnd_conc : indexed time relational;
  blk_return_Salk : indexed time relational;
  blk_return_zero_flow_comp : indexed (time * string) relational
}.

(** [build], for the time set [flowsheet_time] of the enclosing flowsheet.
    The index set of [return_zero_flow_comp] is the product
    [time x zero_flow_components], time outermost. *)
Definition build (flowsheet_time : list time) : TranslatorData := {|
  blk_eq_flow_vol_rule := declare flowsheet_time eq_flow_vol_rule;
  blk_eq_temperature_rule := declare flowsheet_time eq_temperature_rule;
  blk_eq_pressure_rule := declare flowsheet_time eq_pressure_rule;
  blk_eq_SI_conc := declare flowsheet_time eq_SI_conc;
  blk_eq_XI_conc := declare flowsheet_time eq_XI_conc;
  blk_eq_SS_conc := declare flowsheet_time eq_SS_conc;
  blk_eq_XS_conc := declare flowsheet_time eq_XS_conc;
  blk_eq_Snh_conc := declare flowsheet_time eq_Snh_conc;
  blk_eq_Snd_conc := declare flowsheet_time eq_Snd_conc;
  blk_eq_Xnd_conc := declare flowsheet_time eq_Xnd_conc;
  blk_return_Salk := declare flowsheet_time return_Salk;
  blk_return_zero_flow_comp :=
    declare (list_prod flowsheet_time zero_flow_components)
            return_zero_flow_comp
|}.

(** Every constraint of the block, in declaration order. *)
Definition activated_equalities (m : TranslatorData) : list relational :=
  map snd (blk_eq_flow_vol_rule m) ++ map snd (blk_eq_temperature_rule m)
  ++ map snd (blk_eq_pressure_rule m) ++ map snd (blk_eq_SI_conc m)
  ++ map snd (blk_eq_XI_conc m) ++ map snd (blk_eq_SS_conc m)
  ++ map snd (blk_eq_XS_conc m) ++ map snd (blk_eq_Snh_conc m)
  ++ map snd (blk_eq_Snd_conc m) ++ map snd (blk_eq_Xnd_conc m)
  ++ map snd (blk_return_Salk m) ++ map snd (blk_return_zero_flow_comp m).

End Translator.

(** ** Degrees of freedom *)

(** [idaes.core.util.model_statistics.degrees_of_freedom]: the number of
    unfixed variables that occur in activated equality constraints, minus
    the number of activated equality constraints.  Applied here to the
    constraints the translator declares; parameters are not variables. *)

Definition var_eq_dec (x y : var) : {x = y} + {x <> y}.
Proof.
  decide equality; solve [apply Z.eq_dec | apply string_dec | decide equality].
Defined.

Definition variables_in_activated_equalities (cs : list relational) : list var :=
  nodup var_eq_dec (flat_map relational_vars cs).

Definition unfixed_variables_in_activated_equalities
    (fixed : var -> bool) (cs : list relational) : list var :=
  filter (fun x => negb (fixed x)) (variables_in_activated_equalities cs).

Definition degrees_of_freedom (fixed : var -> bool) (cs : list relational) : Z :=
  Z.of_nat (List.length (unfixed_variables_in_activated_equalities fixed cs))
  - Z.of_nat (List.length cs).

(** The values the constraints of [build] assign to the outlet state, read
    off an inlet state [env]. *)
Definition translate (pv : param_values) (env : var_values) : var_values :=
  fun x =>
    let inl_ t j := env (conc_mass_comp properties_in t j) in
    match x with
    | flow_vol properties_out t => env (flow_vol properties_in t)
    | temperature properties_out t => env (temperature properties_in t)
    | pressure properties_out t => env (pressure properties_in t)
    | alkalinity properties_out t => inl_ t "S_IC"%string
    | conc_mass_comp properties_out t j =>
        if String.eqb j "S_I" then inl_ t "S_I"%string
        else if String.eqb j "X_I" then inl_ t "X_I"%string
        else if String.eqb j "S_S" then
          fold_left Qplus (map (inl_ t) Translator.readily_biodegradable) 0
        else if String.eqb j "X_S" then
          fold_left Qplus (map (inl_ t) Translator.slowly_biodegradable) 0
        else if String.eqb j "S_NH" then inl_ t "S_IN"%string
        else if String.eqb j "S_ND" then
          inl_ t "S_I"%string * (pv N_I + pv N_aa)
        else if String.eqb j "X_ND" then
          pv N_bac * (inl_ t "X_su" + inl_ t "X_aa" + inl_ t "X_fa"
                      + inl_ t "X_c4" + inl_ t "X_pro" + inl_ t "X_ac"
                      + inl_ t "X_h2")%string
          + pv N_I * inl_ t "X_I"%string + pv N_I * inl_ t "X_c"%string
          + pv N_aa * inl_ t "X_pr"%string
          - inl_ t "X_I"%string * pv N_I * pv i_ec
        else if existsb (String.eqb j) Translator.zero_flow_components then 1e-6
        else env x
    | _ => env x
    end.

(** The fixed flags of the variables once the inlet state is fully
    specified: every variable of [properties_in] is fixed, and [build] has
    left every variable of [properties_out] free. *)
Definition inlet_fully_specified (x : var) : bool :=
  match var_block x with
  | properties_in => true
  | properties_out => false
  end.

(** [c] gives the outlet variable [x] as an expression of the inlet state. *)
Definition defines (c : relational) (x : var) : Prop :=
  var_block x = properties_out
  /\ exists r, c = Equality (V x) r
               /\ Forall (fun y => var_block y = properties_in) (expr_vars r).

(** The variables on the left of the constraints of [build], in
    declaration order. *)
Definition outlet_state (flowsheet_time : list time) : list var :=
  let conc j := map (fun t => conc_mass_comp properties_out t j) flowsheet_time in
  map (flow_vol properties_out) flowsheet_time
  ++ map (temperature properties_out) flowsheet_time
  ++ map (pressure properties_out) flowsheet_time
  ++ conc "S_I"%string ++ conc "X_I"%string ++ conc "S_S"%string
  ++ conc "X_S"%string ++ conc "S_NH"%string ++ conc "S_ND"%string
  ++ conc "X_ND"%string
  ++ map (alkalinity properties_out) flowsheet_time
  ++ map (fun ti => conc_mass_comp properties_out (fst ti) (snd ti))
         (list_prod flowsheet_time Translator.zero_flow_components).

(** ** Configuration *)

Module Config.

(** The options [dynamic] and [has_holdup] of [CONFIG].  The other options
    ([has_phase_equilibrium], [outlet_state_defined], the property packages
    and their arguments) have domains of their own and are validated
    independently of these two. *)

(** Python values a caller may pass for a flag: [None], a [bool], an [int],
    a finite [float] (by the rational it denotes) or a [str].  Other
    numeric types ([complex], [Decimal], [Fraction]) compare like the
    number they denote; [nan] compares unequal to everything. *)
Inductive pyval :=
| PyNone
| PyBool (b : bool)
| PyInt (z : Z)
| PyFloat (q : Q)
| PyStr (s : string).

(** The number a numeric value denotes; [bool] is a subtype of [int]. *)
Definition as_number (v : pyval) : option Q :=
  match v with
  | PyBool b => Some (inject_Z (Z.b2z b))
  | PyInt z => Some (inject_Z z)
  | PyFloat q => Some q
  | PyNone | PyStr _ => None
  end.

(** Python's [==] on these values: numbers compare by value across
    [bool], [int] and [float], so [False == 0 == 0.0]. *)
Definition py_eq (a b : pyval) : bool :=
  match a, b with
  | PyNone, PyNone => true
  | PyStr x, PyStr y => String.eqb x y
  | _, _ =>
      match as_number a, as_number b with
      | Some x, Some y => Qeq_bool x y
      | _, _ => false
      end
  end.

(** [value in domain] for a Python list: some item is the value or
    compares equal to it. *)
Definition py_in (value : pyval) (domain : list pyval) : bool :=
  existsb (fun e => py_eq e value) domain.

Inductive validated :=
| Accepted (v : pyval)
| ValueError (rejected : pyval).

(** [pyomo.common.config.In(domain)]: return the value when it is in the
    domain, raise [ValueError] otherwise. *)
Definition In_ (domain : list pyval) (value : pyval) : validated :=
  if py_in value domain then Accepted value else ValueError value.

Record ConfigValue := {
  domain : pyval -> validated;
  default : pyval
}.

(** The two flags of [CONFIG] whose domain is [In([False])]. *)
Definition dynamic : ConfigValue :=
  {| domain := In_ [PyBool false]; default := PyBool false |}.

Definition has_holdup : ConfigValue :=
  {| default := PyBool false; domain := In_ [PyBool false] |}.

(** [ConfigValue._cast]: [None] is returned as it is, before the domain is
    looked at; any other value goes through the domain. *)
Definition cast (cv : ConfigValue) (value : pyval) : validated :=
  match value with
  | PyNone => Accepted PyNone
  | _ => domain cv value
  end.

(** Setting an option: the caller's value when one is given, the default
    otherwise, cast. *)
Definition set_value (cv : ConfigValue) (given : option pyval) : validated :=
  cast cv (match given with Some v => v | None => default cv end).

Definition is_accepted (r : validated) : bool :=
  match r with Accepted _ => true | ValueError _ => false end.

(** Validation of the two flags, in declaration order. *)
Definition validate_flags (given_dynamic given_has_holdup : option pyval)
  : bool :=
  is_accepted (set_value dynamic given_dynamic)
  && is_accepted (set_value has_holdup given_has_holdup).

End Config.

(** ** Initialization *)

Module Init.

Local Open Scope string_scope.

(** A Python exception escaping a call. *)
Inductive exn := Exception (msg : string).

Inductive result (A : Type) :=
| Returned (a : A)
| Raised (e : exn).
Arguments Returned {A} a.
Arguments Raised {A} e.

(** What [initialize_build] calls on its collaborators.  [Model] is the
    state of the Pyomo model (values and fixed flags of the variables of
    the unit and of its two state blocks); a call that touches the model
    returns the model it leaves behind, also when it raises. *)
Record Framework := {
  Model : Type;
  Args : Type;
  Flags : Type;
  Solver : Type;
  Results : Type;
  (** [get_solver(solver, optarg)] *)
  get_solver : option string -> option Args -> result Solver;
  (** [blk.properties_in.initialize(outlvl, optarg, solver, state_args,
      hold_state)] *)
  properties_in_initialize :
    Z -> option Args -> option string -> option Args -> bool ->
    Model -> result Flags * Model;
  (** [blk.properties_out.initialize(outlvl, optarg, solver, state_args)] *)
  properties_out_initialize :
    Z -> option Args -> option string -> option Args ->
    Model -> result unit * Model;
  (** [degrees_of_freedom(blk)] *)
  model_degrees_of_freedom : Model -> Z;
  (** [opt.solve(blk, tee=slc.tee)] inside the solver-log context *)
  solve : Solver -> Model -> result Results * Model;
  (** [idaeslog.condition(res)] *)
  condition : Results -> string;
  (** [blk.properties_in.release_state(flags, outlvl)] *)
  release_state : Flags -> Z -> Model -> result unit * Model
}.

(** The collaborator calls that [initialize_build] makes. *)
Inductive callee :=
| to_get_solver
| to_initialize_in
| to_initialize_out
| to_solve
| to_release_state.

Section InitializeBuild.
Variable F : Framework.

(** What a run leaves behind for an observer: every call made on a
    collaborator, with what it returned or the exception it raised, and the
    records sent to [init_log]. *)
Inductive event :=
| got_solver
| initialized_in (hold_state : bool) (flags : Flags F)
| initialized_out
| solved (res : Results F)
| info (msg : string)
| warning (msg : string)
| released (flags : Flags F)
| raised (c : callee) (e : exn).

Record state := {
  model : Model F;
  trace : list event
}.

Definition M (A : Type) := state -> result A * state.

Definition ret {A} (a : A) : M A := fun s => (Returned a, s).

Definition bind {A B} (c : M A) (k : A -> M B) : M B :=
  fun s =>
    match c s with
    | (Returned a, s') => k a s'
    | (Raised e, s') => (Raised e, s')
    end.

Definition emit (e : event) : M unit :=
  fun s => (Returned tt, {| model := model s; trace := trace s ++ [e] |}).

(** A call on the collaborator [c]: [ev] is recorded when the call
    returns, [raised c e] when it raises [e]. *)
Definition call {A} (c : callee) (op : Model F -> result A * Model F)
    (ev : A -> event) : M A :=
  fun s =>
    match op (model s) with
    | (Returned a, m) =>
        (Returned a, {| model := m; trace := trace s ++ [ev a] |})
    | (Raised e, m) =>
        (Raised e, {| model := m; trace := trace s ++ [raised c e] |})
    end.

Definition query {A} (f : Model F -> A) : M A :=
  fun s => (Returned (f (model s)), s).

Notation "x <- c ;; k" := (bind c (fun x => k))
  (at level 61, c at next level, right associativity).
Notation "c ;;; k" := (bind c (fun _ => k))
  (at level 61, right associativity).

Definition incomplete_msg : string :=
  "Initialization incomplete. Degrees of freedom "
  ++ "were not zero. Please provide sufficient number "
  ++ "of constraints linking the state variables "
  ++ "between the two state blocks.".

Definition complete_msg (res : Results F) : string :=
  "Initialization Complete " ++ condition F res ++ ".".

(** [initialize_build].  [getInitLogger] only names the logger that the
    [info] and [warning] records go to.  No call is wrapped in [try]: an
    exception raised by a collaborator ends the run there. *)
Definition initialize_build
    (state_args_in state_args_out : option (Args F)) (outlvl : Z)
    (solver : option string) (optarg : option (Args F)) : M unit :=
  opt <- call to_get_solver (fun m => (get_solver F solver optarg, m))
              (fun _ => got_solver) ;;
  flags <- call to_initialize_in
                (properties_in_initialize F outlvl optarg solver
                   state_args_in true)
                (initialized_in true) ;;
  call to_initialize_out
       (properties_out_initialize F outlvl optarg solver state_args_out)
       (fun _ => initialized_out) ;;;
  dof <- query (model_degrees_of_freedom F) ;;
  (if (dof =? 0)%Z then
     res <- call to_solve (solve F opt) solved ;;
     emit (info (complete_msg res))
   else
     emit (warning incomplete_msg)) ;;;
  call to_release_state (release_state F flags outlvl)
       (fun _ => released flags).

Definition run {A} (c : M A) (m : Model F) : result A * state :=
  c {| model := m; trace := [] |}.

(** Number of solver invocations a trace records: the solves that
    returned and the solves that raised. *)
Definition solves (tr : list event) : nat :=
  List.length
    (filter (fun e => match e with
                      | solved _ | raised to_solve _ => true
                      | _ => false
                      end) tr).

End InitializeBuild.

Arguments got_solver {F}.
Arguments initialized_in {F} hold_state flags.
Arguments initialized_out {F}.
Arguments solved {F} res.
Arguments info {F} msg.
Arguments warning {F} msg.
Arguments released {F} flags.
Arguments raised {F} c e.
Arguments model {F} s.
Arguments trace {F} s.
Arguments run {F A} c m.
Arguments solves {F} tr.

(** A small framework to run [initialize_build] on.  The model records
    whether the inlet state is fixed and whether the unit links the two
    state blocks; the solver reports what it is configured to report. *)
Module Scenario.

Record plant := {
  inlet_fixed : bool;
  linked : bool;
  report : string
}.

Definition fix_inlet (hold : bool) (p : plant) : result bool * plant :=
  (Returned (inlet_fixed p),
   {| inlet_fixed := hold || inlet_fixed p; linked := linked p;
      report := report p |}).

Definition revert_inlet (flags : bool) (p : plant) : result unit * plant :=
  (Returned tt,
   {| inlet_fixed := flags; linked := linked p; report := report p |}).

Definition plant_dof (p : plant) : Z :=
  ((if inlet_fixed p then 0 else 18) + (if linked p then 0 else 16))%Z.

Definition framework : Framework := {|
  Model := plant;
  Args := list (string * Q);
  Flags := bool;
  Solver := string;
  Results := string;
  get_solver := fun solver _ =>
    Returned (match solver with Some s => s | None => "ipopt" end);
  properties_in_initialize := fun _ _ _ _ hold => fix_inlet hold;
  properties_out_initialize := fun _ _ _ _ p => (Returned tt, p);
  model_degrees_of_freedom := plant_dof;
  solve := fun _ p => (Returned (report p), p);
  condition := fun r => r;
  release_state := fun flags _ => revert_inlet flags
|}.

(** The plant once its inlet state is held. *)
Definition held (p : plant) : plant :=
  {| inlet_fixed := true; linked := linked p; report := report p |}.

Definition infeasible_plant : plant :=
  {| inlet_fixed := false; linked := true;
     report := "infeasible - Converged to a locally infeasible point" |}.

Definition unlinked_plant : plant :=
  {| inlet_fixed := false; linked := false; report := "optimal" |}.

End Scenario.

End Init.

(** ** What the declared constraints read and index *)

(** The components of the block that are indexed by time alone, in
    declaration order. *)
Definition time_indexed (m : Translator.TranslatorData)
  : list (indexed time relational) :=
  [Translator.blk_eq_flow_vol_rule m; Translator.blk_eq_temperature_rule m;
   Translator.blk_eq_pressure_rule m; Translator.blk_eq_SI_conc m;
   Translator.blk_eq_XI_conc m; Translator.blk_eq_SS_conc m;
   Translator.blk_eq_XS_conc m; Translator.blk_eq_Snh_conc m;
   Translator.blk_eq_Snd_conc m; Translator.blk_eq_Xnd_conc m;
   Translator.blk_return_Salk m].

(** The inlet components that occur on the right of some rule: [S_I] and
    [X_I], the members of the two lumping sets (the terms of [eq_Xnd_conc]
    are among them), [S_IN] and [S_IC]. *)
Definition inlet_components_read : list string :=
  (["S_I"; "X_I"]%string ++ Translator.readily_biodegradable
   ++ Translator.slowly_biodegradable ++ ["S_IN"; "S_IC"]%string)%list.

(** The inlet variables that occur in the constraints of [build]. *)
Definition inlet_state_read (flowsheet_time : list time) : list var :=
  map (flow_vol properties_in) flowsheet_time
  ++ map (temperature properties_in) flowsheet_time
  ++ map (pressure properties_in) flowsheet_time
  ++ map (fun ti => conc_mass_comp properties_in (fst ti) (snd ti))
         (list_prod flowsheet_time inlet_components_read).

(** ** Runs of [initialize_build] that raise *)

Definition is_released {F : Init.Framework} (e : Init.event F) : bool :=
  match e with Init.released _ => true | _ => false end.

(** The scenario framework with a solver that does not exit normally. *)
Definition crashing_framework : Init.Framework := {|
  Init.Model := Init.Scenario.plant;
  Init.Args := list (string * Q);
  Init.Flags := bool;
  Init.Solver := string;
  Init.Results := string;
  Init.get_solver := Init.get_solver Init.Scenario.framework;
  Init.properties_in_initialize :=
    Init.properties_in_initialize Init.Scenario.framework;
  Init.properties_out_initialize :=
    Init.properties_out_initialize Init.Scenario.framework;
  Init.model_degrees_of_freedom := Init.Scenario.plant_dof;
  Init.solve := fun _ p =>
    (Init.Raised (Init.Exception "Solver (ipopt) did not exit normally"), p);
  Init.condition := fun r => r;
  Init.release_state := Init.release_state Init.Scenario.framework
|}.

(** ** Lookup in a declared component *)

Section Getitem.
Context {I A : Type} (eqb : I -> I -> bool).
Hypothesis eqb_spec : forall a b, reflect (a = b) (eqb a b).

Lemma getitem_declare (rule : I -> A) (index_set : list I) (i : I) :
  In i index_set -> getitem eqb (declare index_set rule) i = Some (rule i).
Proof.
  induction index_set as [|k rest IH]; simpl; [tauto|].
  intros H. destruct (eqb_spec k i) as [->|Hne]; [reflexivity|].
  destruct H as [H|H]; [contradiction|]. exact (IH H).
Qed.

Lemma getitem_declare_None (rule : I -> A) (index_set : list I) (i : I) :
  ~ In i index_set -> getitem eqb (declare index_set rule) i = None.
Proof.
  induction index_set as [|k rest IH]; simpl; [reflexivity|].
  intros H. destruct (eqb_spec k i) as [->|Hne]; [tauto|].
  apply IH. tauto.
Qed.
End Getitem.

Lemma time_comp_eqb_spec (a b : time * string) : reflect (a = b) (time_comp_eqb a b).
Proof.
  destruct a as [t i], b as [t' i']. unfold time_comp_eqb. simpl.
  destruct (Z.eqb_spec t t'), (String.eqb_spec i i'); simpl;
    constructor; congruence.
Qed.

Lemma getitem_time {A} (rule : time -> A) (flowsheet_time : list time) (t : time) :
  In t flowsheet_time ->
  getitem Z.eqb (declare flowsheet_time rule) t = Some (rule t).
Proof. apply getitem_declare, Z.eqb_spec. Qed.

Lemma Qeq_iff_r (a b b' : Q) : b == b' -> (a == b <-> a == b').
Proof. intros E. rewrite E. reflexivity. Qed.

(** ** The constraints declared at a time index *)

Section Constraints.
Import Translator.
Local Open Scope string_scope.

Variable flowsheet_time : list time.
Variable t : time.
Hypothesis t_in_time : In t flowsheet_time.

Let blk := build flowsheet_time.
Let inlet := conc_mass_comp properties_in t.
Let outlet := conc_mass_comp properties_out t.

(** C1: at every time index of the flowsheet the three constraints
    [eq_flow_vol_rule], [eq_temperature_rule] and [eq_pressure_rule] are
    declared, each is the equation "outlet variable == inlet variable",
    and each holds exactly when the outlet value equals the inlet value. *)
Theorem C1_flow_temperature_pressure_pass_through :
  getitem Z.eqb (blk_eq_flow_vol_rule blk) t
    = Some (V (flow_vol properties_out t) == V (flow_vol properties_in t))%E
  /\ getitem Z.eqb (blk_eq_temperature_rule blk) t
    = Some (V (temperature properties_out t)
            == V (temperature properties_in t))%E
  /\ getitem Z.eqb (blk_eq_pressure_rule blk) t
    = Some (V (pressure properties_out t) == V (pressure properties_in t))%E
  /\ forall pv env,
      (holds pv env (eq_flow_vol_rule t)
       <-> env (flow_vol properties_out t) == env (flow_vol properties_in t))
      /\ (holds pv env (eq_temperature_rule t)
          <-> env (temperature properties_out t)
              == env (temperature properties_in t))
      /\ (holds pv env (eq_pressure_rule t)
          <-> env (pressure properties_out t)
              == env (pressure properties_in t)).
Proof.
  subst blk. cbn [build blk_eq_flow_vol_rule blk_eq_temperature_rule
                  blk_eq_pressure_rule].
  rewrite !getitem_time by exact t_in_time.
  repeat split; intros H; exact H.
Qed.

(** C2: the constraint [eq_SS_conc] declared at [t] equates the outlet
    [S_S] with the sum of the seven inlet concentrations of
    [readily_biodegradable], and [eq_XS_conc] equates the outlet [X_S]
    with the sum of the eleven inlet concentrations of
    [slowly_biodegradable]. *)
Theorem C2_lumped_sums :
  readily_biodegradable
    = ["S_su"; "S_aa"; "S_fa"; "S_va"; "S_bu"; "S_pro"; "S_ac"]
  /\ slowly_biodegradable
    = ["X_c"; "X_ch"; "X_pr"; "X_li"; "X_su"; "X_aa"; "X_fa"; "X_c4";
       "X_pro"; "X_ac"; "X_h2"]
  /\ getitem Z.eqb (blk_eq_SS_conc blk) t
    = Some (V (outlet "S_S")
            == py_sum (map (fun i => V (inlet i)) readily_biodegradable))%E
  /\ getitem Z.eqb (blk_eq_XS_conc blk) t
    = Some (V (outlet "X_S")
            == py_sum (map (fun i => V (inlet i)) slowly_biodegradable))%E
  /\ forall pv env,
      (holds pv env (eq_SS_conc t)
       <-> env (outlet "S_S")
           == env (inlet "S_su") + env (inlet "S_aa") + env (inlet "S_fa")
              + env (inlet "S_va") + env (inlet "S_bu")
              + env (inlet "S_pro") + env (inlet "S_ac"))
      /\ (holds pv env (eq_XS_conc t)
          <-> env (outlet "X_S")
              == env (inlet "X_c") + env (inlet "X_ch") + env (inlet "X_pr")
                 + env (inlet "X_li") + env (inlet "X_su")
                 + env (inlet "X_aa") + env (inlet "X_fa")
                 + env (inlet "X_c4") + env (inlet "X_pro")
                 + env (inlet "X_ac") + env (inlet "X_h2")).
Proof.
  subst blk inlet outlet. cbn [build blk_eq_SS_conc blk_eq_XS_conc].
  rewrite !getitem_time by exact t_in_time.
  do 4 (split; [reflexivity|]).
  intros pv env. cbn.
  split; apply Qeq_iff_r; ring.
Qed.

(** C10: the constraint [eq_Snh_conc] declared at [t] is the equation
    "outlet S_NH == inlet S_IN": it mentions no parameter and no other
    variable, and it holds exactly when the two values are equal, whatever
    the values of the parameters. *)
Theorem C10_Snh_pass_through :
  getitem Z.eqb (blk_eq_Snh_conc blk) t
    = Some (V (outlet "S_NH") == V (inlet "S_IN"))%E
  /\ relational_vars (eq_Snh_conc t) = [outlet "S_NH"; inlet "S_IN"]
  /\ relational_params (eq_Snh_conc t) = []
  /\ forall pv env,
      holds pv env (eq_Snh_conc t)
      <-> env (outlet "S_NH") == env (inlet "S_IN").
Proof.
  subst blk inlet outlet. cbn [build blk_eq_Snh_conc].
  rewrite getitem_time by exact t_in_time.
  repeat split; intros H; exact H.
Qed.

(** C4: the constraint [eq_Snd_conc] declared at [t] holds exactly when
    the outlet [S_ND] equals [S_I(inlet) * (N_I + N_aa)]; with the initial
    parameter values and an inlet [S_I] of 1 that is [0.06/14 + 0.007],
    and every value the constraint then allows for the outlet [S_ND] is
    within [1e-6] of [0.011286]. *)
Theorem C4_Snd_nitrogen_balance :
  getitem Z.eqb (blk_eq_Snd_conc blk) t
    = Some (V (outlet "S_ND")
            == (V (inlet "S_I") * P N_I) + (V (inlet "S_I") * P N_aa))%E
  /\ (forall pv env,
        holds pv env (eq_Snd_conc t)
        <-> env (outlet "S_ND") == env (inlet "S_I") * (pv N_I + pv N_aa))
  /\ (forall env,
        env (inlet "S_I") == 1 ->
        (holds initialize env (eq_Snd_conc t)
         <-> env (outlet "S_ND") == 0.06 / 14 + 0.007))
  /\ (forall env,
        env (inlet "S_I") == 1 ->
        holds initialize env (eq_Snd_conc t) ->
        Qabs (env (outlet "S_ND") - 0.011286) < 1e-6)
  /\ initialize N_I == 0.06 / 14
  /\ initialize N_aa == 0.007
  /\ Qabs (0.06 / 14 + 0.007 - 0.011286) < 1e-6.
Proof.
  subst blk inlet outlet. cbn [build blk_eq_Snd_conc].
  rewrite getitem_time by exact t_in_time.
  split; [reflexivity|]. split; [|split; [|split; [|repeat split]]].
  - intros pv env. cbn. apply Qeq_iff_r. ring.
  - intros env H1. cbn. rewrite H1. apply Qeq_iff_r. ring.
  - intros env H1 H. cbn in H. rewrite H, H1. reflexivity.
Qed.

(** C5: the constraint [eq_Xnd_conc] declared at [t] holds exactly when
    the outlet [X_ND] equals
    [N_bac * (X_su + X_aa + X_fa + X_c4 + X_pro + X_ac + X_h2)
     + N_I * X_I + N_I * X_c + N_aa * X_pr - X_I * N_I * i_ec]
    over the inlet concentrations. *)
Theorem C5_Xnd_nitrogen_balance :
  getitem Z.eqb (blk_eq_Xnd_conc blk) t = Some (eq_Xnd_conc t)
  /\ forall pv env,
      holds pv env (eq_Xnd_conc t)
      <-> env (outlet "X_ND")
          == pv N_bac
             * (env (inlet "X_su") + env (inlet "X_aa") + env (inlet "X_fa")
                + env (inlet "X_c4") + env (inlet "X_pro")
                + env (inlet "X_ac") + env (inlet "X_h2"))
             + pv N_I * env (inlet "X_I") + pv N_I * env (inlet "X_c")
             + pv N_aa * env (inlet "X_pr")
             - env (inlet "X_I") * pv N_I * pv i_ec.
Proof.
  subst blk inlet outlet. cbn [build blk_eq_Xnd_conc].
  rewrite getitem_time by exact t_in_time.
  split; [reflexivity|].
  intros pv env. cbn. apply Qeq_iff_r. ring.
Qed.

End Constraints.

(** ** The floor on the components with no flow *)

(** C3: for every time index [t] of the flowsheet and every component [i]
    among [X_BH], [X_BA], [X_P], [S_O], [S_NO], the constraint
    [return_zero_flow_comp] declared at [(t, i)] is the equation
    "outlet conc_mass_comp[i] == 1e-6"; the outlet concentration is its only
    variable, so whether it holds does not depend on the parameters nor on
    any inlet value. *)
Theorem C3_zero_flow_components_floor
    (flowsheet_time : list time) (t : time) (i : string) :
  In t flowsheet_time ->
  In i ["X_BH"; "X_BA"; "X_P"; "S_O"; "S_NO"]%string ->
  let c := Translator.return_zero_flow_comp (t, i) in
  getitem time_comp_eqb
    (Translator.blk_return_zero_flow_comp (Translator.build flowsheet_time))
    (t, i)
    = Some (V (conc_mass_comp properties_out t i) == Num 1e-6)%E
  /\ relational_vars c = [conc_mass_comp properties_out t i]
  /\ relational_params c = []
  /\ (forall pv env,
        holds pv env c <-> env (conc_mass_comp properties_out t i) == 1e-6)
  /\ (forall pv pv' env env',
        (forall x, var_block x = properties_out -> env x = env' x) ->
        (holds pv env c <-> holds pv' env' c)).
Proof.
  intros Ht Hi c. subst c. split; [|repeat split; try (intros H; exact H)].
  - cbn [Translator.build Translator.blk_return_zero_flow_comp].
    rewrite (getitem_declare time_comp_eqb time_comp_eqb_spec).
    + reflexivity.
    + apply in_prod; assumption.
  - cbn. rewrite <- (H (conc_mass_comp properties_out t i) eq_refl). trivial.
  - cbn. rewrite (H (conc_mass_comp properties_out t i) eq_refl). trivial.
Qed.

(** ** The constraints at the single time index of a steady-state flowsheet *)

Lemma C1_steady_state :
  In 0%Z [0%Z]
  /\ getitem Z.eqb
       (Translator.blk_eq_flow_vol_rule (Translator.build [0%Z])) 0%Z
     = Some (V (flow_vol properties_out 0%Z) == V (flow_vol properties_in 0%Z))%E.
Proof.
  split; [left; reflexivity|].
  exact (proj1 (C1_flow_temperature_pressure_pass_through
                  [0%Z] 0%Z (or_introl eq_refl))).
Defined.

Lemma C2_steady_state :
  In 0%Z [0%Z]
  /\ Datatypes.length Translator.readily_biodegradable = 7%nat
  /\ Datatypes.length Translator.slowly_biodegradable = 11%nat.
Proof.
  split; [left; reflexivity|].
  destruct (C2_lumped_sums [0%Z] 0%Z (or_introl eq_refl)) as (E1 & E2 & _).
  rewrite E1, E2. split; reflexivity.
Defined.

Lemma C3_steady_state :
  In 0%Z [0%Z]
  /\ In "S_O"%string ["X_BH"; "X_BA"; "X_P"; "S_O"; "S_NO"]%string
  /\ getitem time_comp_eqb
       (Translator.blk_return_zero_flow_comp (Translator.build [0%Z]))
       (0%Z, "S_O"%string)
     = Some (V (conc_mass_comp properties_out 0%Z "S_O") == Num 1e-6)%E.
Proof.
  assert (H0 : In 0%Z [0%Z]) by (left; reflexivity).
  assert (Hi : In "S_O"%string ["X_BH"; "X_BA"; "X_P"; "S_O"; "S_NO"]%string)
    by (simpl; tauto).
  split; [exact H0|]. split; [exact Hi|].
  exact (proj1 (C3_zero_flow_components_floor [0%Z] 0%Z "S_O" H0 Hi)).
Defined.

Lemma C4_steady_state :
  In 0%Z [0%Z]
  /\ forall env,
      env (conc_mass_comp properties_in 0%Z "S_I") == 1 ->
      (holds Translator.initialize env (Translator.eq_Snd_conc 0%Z)
       <-> env (conc_mass_comp properties_out 0%Z "S_ND") == 0.06 / 14 + 0.007).
Proof.
  split; [left; reflexivity|].
  exact (proj1 (proj2 (proj2 (C4_Snd_nitrogen_balance
                                [0%Z] 0%Z (or_introl eq_refl))))).
Defined.

Lemma C5_steady_state :
  In 0%Z [0%Z]
  /\ getitem Z.eqb (Translator.blk_eq_Xnd_conc (Translator.build [0%Z])) 0%Z
     = Some (Translator.eq_Xnd_conc 0%Z).
Proof.
  split; [left; reflexivity|].
  exact (proj1 (C5_Xnd_nitrogen_balance [0%Z] 0%Z (or_introl eq_refl))).
Defined.

Lemma C10_steady_state :
  In 0%Z [0%Z]
  /\ getitem Z.eqb (Translator.blk_eq_Snh_conc (Translator.build [0%Z])) 0%Z
     = Some (V (conc_mass_comp properties_out 0%Z "S_NH")
             == V (conc_mass_comp properties_in 0%Z "S_IN"))%E.
Proof.
  split; [left; reflexivity|].
  exact (proj1 (C10_Snh_pass_through [0%Z] 0%Z (or_introl eq_refl))).
Defined.

(** ** Validation of the [dynamic] and [has_holdup] flags *)

Section Flags.
Import Config.

Lemma In_False_accepts (v : pyval) :
  In_ [PyBool false] v = Accepted v <-> py_eq (PyBool false) v = true.
Proof.
  unfold In_, py_in. cbn [existsb]. rewrite orb_false_r.
  destruct (py_eq (PyBool false) v); split; congruence.
Qed.

Lemma In_False_rejects (v : pyval) :
  In_ [PyBool false] v = ValueError v <-> py_eq (PyBool false) v = false.
Proof.
  unfold In_, py_in. cbn [existsb]. rewrite orb_false_r.
  destruct (py_eq (PyBool false) v); split; congruence.
Qed.

Lemma cast_In_False (v : pyval) :
  (cast dynamic v = Accepted v
   <-> v = PyNone \/ py_eq (PyBool false) v = true)
  /\ (cast dynamic v = ValueError v
      <-> v <> PyNone /\ py_eq (PyBool false) v = false).
Proof.
  destruct v as [|b|z|q|s];
    try (split; [split; [intros _; left; reflexivity|reflexivity]
                |split; [discriminate|intros [H _]; contradiction]]);
    cbn [cast dynamic domain];
    (split;
     [rewrite In_False_accepts; split;
      [intros H; right; exact H|intros [H|H]; [discriminate H|exact H]]
     |rewrite In_False_rejects; split;
      [intros H; split; [discriminate|exact H]|intros [_ H]; exact H]]).
Qed.

(** C6, as stated, fails: the integer [0] is a value other than [False],
    it is given for [dynamic], and validation accepts the configuration. *)
Lemma C6_integer_zero_is_accepted :
  ~ (forall (given_dynamic given_has_holdup : option pyval) (v : pyval),
        given_dynamic = Some v \/ given_has_holdup = Some v ->
        v <> PyBool false ->
        validate_flags given_dynamic given_has_holdup = false).
Proof.
  intros H.
  specialize (H (Some (PyInt 0)) None (PyInt 0) (or_introl eq_refl)).
  assert (Hne : PyInt 0 <> PyBool false) by discriminate.
  specialize (H Hne). vm_compute in H. discriminate H.
Qed.

(** C6, amended: a value given for [dynamic] or [has_holdup] is rejected
    with [ValueError] exactly when it is not [None] and does not compare
    equal to [False] under Python's [==].  So [True], non-zero numbers and
    strings are rejected, while [None] (which is never shown to the
    domain), [False], the integer [0] and the float [0.0] are accepted and
    stored as given.  A configuration is accepted exactly when each flag is
    left at its default or given [None] or a value equal to [False]; in
    particular when both are left at their defaults. *)
Theorem C6_flags_must_be_None_or_equal_False
    (given_dynamic given_has_holdup : option pyval) (v : pyval) :
  (set_value dynamic (Some v) = ValueError v
   <-> v <> PyNone /\ py_eq (PyBool false) v = false)
  /\ (set_value has_holdup (Some v) = ValueError v
      <-> v <> PyNone /\ py_eq (PyBool false) v = false)
  /\ (set_value dynamic (Some v) = Accepted v
      <-> v = PyNone \/ py_eq (PyBool false) v = true)
  /\ (set_value has_holdup (Some v) = Accepted v
      <-> v = PyNone \/ py_eq (PyBool false) v = true)
  /\ set_value dynamic (Some (PyBool true)) = ValueError (PyBool true)
  /\ set_value has_holdup (Some (PyBool true)) = ValueError (PyBool true)
  /\ set_value dynamic (Some PyNone) = Accepted PyNone
  /\ set_value has_holdup (Some PyNone) = Accepted PyNone
  /\ set_value dynamic (Some (PyInt 0)) = Accepted (PyInt 0)
  /\ set_value dynamic (Some (PyFloat 0)) = Accepted (PyFloat 0)
  /\ set_value dynamic None = Accepted (PyBool false)
  /\ set_value has_holdup None = Accepted (PyBool false)
  /\ validate_flags None None = true
  /\ (validate_flags given_dynamic given_has_holdup = true
      <-> (forall d, given_dynamic = Some d ->
                     d = PyNone \/ py_eq (PyBool false) d = true)
          /\ (forall h, given_has_holdup = Some h ->
                        h = PyNone \/ py_eq (PyBool false) h = true)).
Proof.
  pose proof (cast_In_False v) as [Hacc Hrej].
  split; [exact Hrej|]. split; [exact Hrej|].
  split; [exact Hacc|]. split; [exact Hacc|].
  do 9 (split; [reflexivity|]).
  unfold validate_flags. rewrite andb_true_iff.
  assert (A : forall g,
             is_accepted (set_value dynamic g) = true
             <-> (forall x, g = Some x ->
                            x = PyNone \/ py_eq (PyBool false) x = true)).
  { intros [x|].
    - pose proof (cast_In_False x) as [Ha Hr].
      change (set_value dynamic (Some x)) with (cast dynamic x).
      split.
      + intros H y [= <-].
        destruct (py_eq (PyBool false) x) eqn:Ex; [right; reflexivity|].
        left. destruct x as [|b|z|q|s]; [reflexivity|..];
          (exfalso; rewrite (proj2 Hr) in H;
           [discriminate H|split; [discriminate|reflexivity]]).
      + intros H. rewrite (proj2 Ha (H x eq_refl)). reflexivity.
    - split; [discriminate|reflexivity]. }
  change (set_value has_holdup given_has_holdup)
    with (set_value dynamic given_has_holdup).
  rewrite !A. reflexivity.
Qed.

End Flags.

(** ** Degrees of freedom of the declared constraints *)

Lemma eval_inlet_only (pv : param_values) (env1 env2 : var_values) (e : expr) :
  (forall x, var_block x = properties_in -> env1 x == env2 x) ->
  Forall (fun y => var_block y = properties_in) (expr_vars e) ->
  eval pv env1 e == eval pv env2 e.
Proof.
  intros Hagree. induction e as [q|x|p|a IHa b IHb|a IHa b IHb|a IHa b IHb];
    cbn [expr_vars eval]; intros Hv;
    try (apply Forall_app in Hv; destruct Hv as [Ha Hb];
         rewrite (IHa Ha), (IHb Hb)); try reflexivity.
  apply Hagree. inversion Hv; assumption.
Qed.

Lemma NoDup_list_prod {A B} (l : list A) (l' : list B) :
  NoDup l -> NoDup l' -> NoDup (list_prod l l').
Proof.
  intros Hl Hl'. induction Hl as [|a l Ha Hl IH]; cbn [list_prod].
  - constructor.
  - apply NoDup_app.
    + apply Injective_map_NoDup; [|exact Hl'].
      intros x y [= ->]. reflexivity.
    + exact IH.
    + intros [x y] Hin Hin'. apply in_map_iff in Hin.
      destruct Hin as (b & [= <- <-] & _).
      apply in_prod_iff in Hin'. tauto.
Qed.

Section Determined.
Variable cs : list relational.
Variable xs : list var.
Hypothesis explicit : Forall2 defines cs xs.

Lemma defined_occurs (x : var) :
  In x xs -> In x (flat_map relational_vars cs) /\ var_block x = properties_out.
Proof.
  induction explicit as [|c y cs' xs' Hd Hrest IH]; cbn [In flat_map]; [tauto|].
  specialize (IH Hrest).
  intros [<-|Hin].
  - destruct Hd as (Hout & r & -> & _). split; [|exact Hout].
    apply in_or_app. left. left. reflexivity.
  - destruct (IH Hin) as [H1 H2]. split; [|exact H2].
    apply in_or_app. right. exact H1.
Qed.

Lemma outlet_occurrence_defined (x : var) :
  In x (flat_map relational_vars cs) -> var_block x = properties_out ->
  exists r, In (Equality (V x) r) cs
            /\ Forall (fun y => var_block y = properties_in) (expr_vars r).
Proof.
  induction explicit as [|c y cs' xs' Hd Hrest IH]; cbn [In flat_map]; [tauto|].
  specialize (IH Hrest).
  intros Hin Hout. apply in_app_or in Hin. destruct Hin as [Hin|Hin].
  - destruct Hd as (_ & r & -> & Hr). cbn in Hin.
    destruct Hin as [<-|Hin]; [exists r; auto|].
    rewrite Forall_forall in Hr. specialize (Hr x Hin). congruence.
  - destruct (IH Hin Hout) as (r & H1 & H2). exists r. auto.
Qed.

Lemma defined_in_outlet_state (x : var) :
  In x (flat_map relational_vars cs) -> var_block x = properties_out ->
  In x xs.
Proof.
  induction explicit as [|c y cs' xs' Hd Hrest IH]; cbn [In flat_map]; [tauto|].
  specialize (IH Hrest).
  intros Hin Hout. apply in_app_or in Hin. destruct Hin as [Hin|Hin].
  - destruct Hd as (_ & r & -> & Hr). cbn in Hin.
    destruct Hin as [<-|Hin]; [auto|].
    rewrite Forall_forall in Hr. specialize (Hr x Hin). congruence.
  - right. exact (IH Hin Hout).
Qed.

Lemma unfixed_are_defined (x : var) :
  In x (unfixed_variables_in_activated_equalities inlet_fully_specified cs)
  <-> In x xs.
Proof.
  unfold unfixed_variables_in_activated_equalities,
    variables_in_activated_equalities, inlet_fully_specified.
  rewrite filter_In, nodup_In. split.
  - intros [Hin Hfree]. apply defined_in_outlet_state; [exact Hin|].
    destruct (var_block x); [discriminate|reflexivity].
  - intros Hin. destruct (defined_occurs x Hin) as [H1 H2].
    rewrite H2. auto.
Qed.

Lemma explicit_degrees_of_freedom :
  NoDup xs -> degrees_of_freedom inlet_fully_specified cs = 0%Z.
Proof.
  intros Hnd. unfold degrees_of_freedom.
  assert (E : List.length
                (unfixed_variables_in_activated_equalities
                   inlet_fully_specified cs) = List.length xs).
  { apply Permutation_length, NoDup_Permutation.
    - apply NoDup_filter, NoDup_nodup.
    - exact Hnd.
    - exact unfixed_are_defined. }
  rewrite E, (Forall2_length explicit). lia.
Qed.

Lemma explicit_solution_unique (pv : param_values) (env1 env2 : var_values) :
  (forall x, var_block x = properties_in -> env1 x == env2 x) ->
  Forall (holds pv env1) cs -> Forall (holds pv env2) cs ->
  forall x, In x (variables_in_activated_equalities cs) -> env1 x == env2 x.
Proof.
  intros Hagree H1 H2 x Hin. unfold variables_in_activated_equalities in Hin.
  rewrite nodup_In in Hin.
  destruct (var_block x) eqn:Hb; [exact (Hagree x Hb)|].
  destruct (outlet_occurrence_defined x Hin Hb) as (r & Hc & Hr).
  rewrite Forall_forall in H1, H2.
  specialize (H1 _ Hc). specialize (H2 _ Hc). cbn in H1, H2.
  rewrite H1, H2. apply eval_inlet_only; assumption.
Qed.
End Determined.

Lemma declared_defines {I} (index_set : list I) (rule : I -> relational)
    (f : I -> var) :
  (forall i, In i index_set -> defines (rule i) (f i)) ->
  Forall2 defines (map snd (declare index_set rule)) (map f index_set).
Proof.
  induction index_set as [|i rest IH]; intros H; cbn; constructor.
  - apply H. left. reflexivity.
  - apply IH. intros j Hj. apply H. right. exact Hj.
Qed.

Lemma declared_hold {I} (index_set : list I) (rule : I -> relational)
    (pv : param_values) (env : var_values) :
  (forall i, In i index_set -> holds pv env (rule i)) ->
  Forall (holds pv env) (map snd (declare index_set rule)).
Proof.
  intros H. unfold declare. rewrite map_map. cbn [snd].
  apply Forall_forall. intros c Hc. apply in_map_iff in Hc.
  destruct Hc as (i & <- & Hi). exact (H i Hi).
Qed.

Ltac explicit_form :=
  intros; split;
  [reflexivity
  |eexists; split; [reflexivity|cbn; repeat constructor]].

Lemma build_explicit (flowsheet_time : list time) :
  Forall2 defines
    (Translator.activated_equalities (Translator.build flowsheet_time))
    (outlet_state flowsheet_time).
Proof.
  unfold Translator.activated_equalities, Translator.build, outlet_state.
  cbn [Translator.blk_eq_flow_vol_rule Translator.blk_eq_temperature_rule
       Translator.blk_eq_pressure_rule Translator.blk_eq_SI_conc
       Translator.blk_eq_XI_conc Translator.blk_eq_SS_conc
       Translator.blk_eq_XS_conc Translator.blk_eq_Snh_conc
       Translator.blk_eq_Snd_conc Translator.blk_eq_Xnd_conc
       Translator.blk_return_Salk Translator.blk_return_zero_flow_comp].
  repeat (apply Forall2_app; [apply declared_defines; explicit_form|]).
  apply declared_defines. explicit_form.
Qed.

Lemma build_satisfied (flowsheet_time : list time)
    (pv : param_values) (env : var_values) :
  Forall (holds pv (translate pv env))
    (Translator.activated_equalities (Translator.build flowsheet_time)).
Proof.
  unfold Translator.activated_equalities, Translator.build.
  cbn [Translator.blk_eq_flow_vol_rule Translator.blk_eq_temperature_rule
       Translator.blk_eq_pressure_rule Translator.blk_eq_SI_conc
       Translator.blk_eq_XI_conc Translator.blk_eq_SS_conc
       Translator.blk_eq_XS_conc Translator.blk_eq_Snh_conc
       Translator.blk_eq_Snd_conc Translator.blk_eq_Xnd_conc
       Translator.blk_return_Salk Translator.blk_return_zero_flow_comp].
  repeat (apply Forall_app; split);
    apply declared_hold; intros i Hi; try (cbn; ring).
  destruct i as [t j]. apply in_prod_iff in Hi. destruct Hi as [_ Hj].
  cbn in Hj.
  repeat (destruct Hj as [<-|Hj]; [cbn; reflexivity|]). contradiction.
Qed.

Ltac in_family H :=
  let t := fresh "t" in
  let E := fresh "E" in
  let Hin := fresh "Hin" in
  apply in_map_iff in H; destruct H as (t & E & Hin).

Ltac other_family H :=
  repeat (apply in_app_or in H; destruct H as [H|H]);
  (let t := fresh "t" in
   let E := fresh "E" in
   let Hin := fresh "Hin" in
   apply in_map_iff in H; destruct H as (t & E & Hin);
   try discriminate E;
   try (destruct t; apply in_prod_iff in Hin; destruct Hin as [_ Hin];
        cbn in E, Hin; injection E as -> ->; intuition discriminate)).

Lemma outlet_state_NoDup (flowsheet_time : list time) :
  NoDup flowsheet_time -> NoDup (outlet_state flowsheet_time).
Proof.
  intros Hnd. unfold outlet_state.
  repeat (apply NoDup_app;
          [apply Injective_map_NoDup;
           [intros x y E; injection E; auto|exact Hnd]
          |
          |let a := fresh "a" in
           let H1 := fresh "H" in
           let H2 := fresh "H" in
           intros a H1 H2; in_family H1; subst a; other_family H2]).
  apply Injective_map_NoDup.
  - intros [t i] [t' i'] E. cbn in E. injection E as -> ->. reflexivity.
  - apply NoDup_list_prod; [exact Hnd|].
    unfold Translator.zero_flow_components.
    repeat (constructor; [cbn; intuition discriminate|]). constructor.
Qed.

(** ** C7 *)

(** C7: for a time set without repetition, once the inlet state is fully
    specified the constraints declared by [build] have zero degrees of
    freedom -- as many constraints as free variables -- and they determine
    the outlet quantities they mention: for every inlet state and all
    parameter values [translate] satisfies every constraint without
    touching the inlet, and two states that satisfy them and agree on the
    inlet agree on every variable that occurs. *)
Theorem C7_zero_degrees_of_freedom (flowsheet_time : list time) :
  NoDup flowsheet_time ->
  let cs := Translator.activated_equalities (Translator.build flowsheet_time) in
  degrees_of_freedom inlet_fully_specified cs = 0%Z
  /\ List.length cs = (16 * List.length flowsheet_time)%nat
  /\ (forall x, In x (unfixed_variables_in_activated_equalities
                        inlet_fully_specified cs)
                <-> In x (outlet_state flowsheet_time))
  /\ (forall pv env,
        Forall (holds pv (translate pv env)) cs
        /\ forall x, var_block x = properties_in -> translate pv env x = env x)
  /\ (forall pv env1 env2,
        (forall x, var_block x = properties_in -> env1 x == env2 x) ->
        Forall (holds pv env1) cs -> Forall (holds pv env2) cs ->
        forall x, In x (variables_in_activated_equalities cs) ->
                  env1 x == env2 x).
Proof.
  intros Hnd cs. subst cs.
  pose proof (build_explicit flowsheet_time) as Hex.
  split; [|split; [|split; [|split]]].
  - apply (explicit_degrees_of_freedom _ _ Hex).
    apply outlet_state_NoDup, Hnd.
  - unfold Translator.activated_equalities, Translator.build, declare.
    cbn [Translator.blk_eq_flow_vol_rule Translator.blk_eq_temperature_rule
         Translator.blk_eq_pressure_rule Translator.blk_eq_SI_conc
         Translator.blk_eq_XI_conc Translator.blk_eq_SS_conc
         Translator.blk_eq_XS_conc Translator.blk_eq_Snh_conc
         Translator.blk_eq_Snd_conc Translator.blk_eq_Xnd_conc
         Translator.blk_return_Salk Translator.blk_return_zero_flow_comp].
    rewrite !length_app, !length_map, length_prod.
    cbn [List.length Translator.zero_flow_components]. lia.
  - intros x. apply (unfixed_are_defined _ _ Hex).
  - intros pv env. split; [apply build_satisfied|].
    intros [] Hx; cbn in Hx; subst; reflexivity.
  - intros pv env1 env2. apply (explicit_solution_unique _ _ Hex).
Qed.

Lemma C7_steady_state :
  NoDup [0%Z]
  /\ degrees_of_freedom inlet_fully_specified
       (Translator.activated_equalities (Translator.build [0%Z])) = 0%Z.
Proof.
  assert (H : NoDup [0%Z]) by (constructor; [simpl; tauto|constructor]).
  split; [exact H|].
  exact (proj1 (C7_zero_degrees_of_freedom [0%Z] H)).
Defined.

(** ** [initialize_build] *)

Section InitializeBuildFacts.
Import Init.

Variable F : Framework.
Variables state_args_in state_args_out optarg : option (Args F).
Variable outlvl : Z.
Variable solver : option string.

Let init := initialize_build F state_args_in state_args_out outlvl solver optarg.

(** C8: when the solver object is obtained and the two state-block
    initializations return, leaving [flags] and the model [m2]: if
    [degrees_of_freedom] is zero on [m2], the solver is called once, the
    text "Initialization Complete <status>." is logged at level info, where
    <status> is [idaeslog.condition] of whatever result [res] the solver
    returned, and the flags are released; otherwise the warning that the
    degrees of freedom were not zero and that constraints linking the two
    state blocks are missing is logged, the solver is not called, and the
    flags are released.  In both cases [initialize_build] returns normally
    as soon as [release_state] does, whatever the solver reported. *)
Theorem C8_solve_once_or_warn
    (m0 m1 m2 : Model F) (opt : Solver F) (flags : Flags F) :
  get_solver F solver optarg = Returned opt ->
  properties_in_initialize F outlvl optarg solver state_args_in true m0
    = (Returned flags, m1) ->
  properties_out_initialize F outlvl optarg solver state_args_out m1
    = (Returned tt, m2) ->
  (model_degrees_of_freedom F m2 = 0%Z ->
   forall (res : Results F) (m3 m4 : Model F),
     solve F opt m2 = (Returned res, m3) ->
     release_state F flags outlvl m3 = (Returned tt, m4) ->
     let tr := [got_solver; initialized_in true flags; initialized_out;
                solved res;
                info ("Initialization Complete " ++ condition F res ++ ".")%string;
                released flags] in
     run init m0 = (Returned tt, {| model := m4; trace := tr |})
     /\ solves tr = 1%nat)
  /\ (model_degrees_of_freedom F m2 <> 0%Z ->
      forall m4 : Model F,
        release_state F flags outlvl m2 = (Returned tt, m4) ->
        let tr := [got_solver; initialized_in true flags; initialized_out;
                   warning
                     ("Initialization incomplete. Degrees of freedom "
                      ++ "were not zero. Please provide sufficient number "
                      ++ "of constraints linking the state variables "
                      ++ "between the two state blocks.")%string;
                   released flags] in
        run init m0 = (Returned tt, {| model := m4; trace := tr |})
        /\ solves tr = 0%nat).
Proof.
  intros Hopt Hin Hout. subst init. split.
  - intros Hdof res m3 m4 Hsolve Hrel tr. subst tr.
    split; [|reflexivity].
    unfold run, initialize_build, bind, call, query, emit.
    cbn [model trace]. rewrite Hopt. cbn [model trace]. rewrite Hin.
    cbn [model trace]. rewrite Hout. cbn [model trace]. rewrite Hdof.
    cbn [Z.eqb model trace]. rewrite Hsolve. cbn [model trace].
    rewrite Hrel. reflexivity.
  - intros Hdof m4 Hrel tr. subst tr. split; [|reflexivity].
    unfold run, initialize_build, bind, call, query, emit.
    cbn [model trace]. rewrite Hopt. cbn [model trace]. rewrite Hin.
    cbn [model trace]. rewrite Hout. cbn [model trace].
    apply Z.eqb_neq in Hdof. rewrite Hdof. cbn [model trace].
    rewrite Hrel. reflexivity.
Qed.

(** C9: every run of [initialize_build] that returns ends with
    [release_state] called on the flags that [properties_in.initialize],
    called with [hold_state=True], returned; between the two
    initializations and the release lies either one solve with its info
    record or the warning, and the model the run leaves is the one
    [release_state] returned. *)
Theorem C9_flags_released (m0 : Model F) (s : state F) :
  run init m0 = (Returned tt, s) ->
  exists (flags : Flags F) (m1 m3 : Model F) (branch : list (event F)),
    properties_in_initialize F outlvl optarg solver state_args_in true m0
      = (Returned flags, m1)
    /\ trace s = [got_solver; initialized_in true flags; initialized_out]
                 ++ branch ++ [released flags]
    /\ ((exists res, branch = [solved res; info (complete_msg F res)])
        \/ branch = [warning incomplete_msg])
    /\ release_state F flags outlvl m3 = (Returned tt, model s).
Proof.
  subst init. unfold run, initialize_build, bind, call, query, emit.
  cbv beta iota zeta; cbn [model trace].
  destruct (get_solver F solver optarg) as [opt|e]; [|discriminate].
  cbv beta iota zeta; cbn [model trace].
  destruct (properties_in_initialize F outlvl optarg solver state_args_in
              true m0) as [[flags|e] m1]; [|discriminate].
  cbv beta iota zeta; cbn [model trace].
  destruct (properties_out_initialize F outlvl optarg solver state_args_out
              m1) as [[[]|e] m2]; [|discriminate].
  cbv beta iota zeta; cbn [model trace].
  destruct (model_degrees_of_freedom F m2 =? 0)%Z;
    cbv beta iota zeta; cbn [model trace].
  - destruct (solve F opt m2) as [[res|e] m3]; [|discriminate].
    cbv beta iota zeta; cbn [model trace].
    destruct (release_state F flags outlvl m3) as [[[]|e] m4] eqn:Hrel;
      [|discriminate].
    intros E. injection E as <-.
    exists flags, m1, m3, [solved res; info (complete_msg F res)].
    cbv beta iota zeta; cbn [model trace]. repeat split; eauto.
  - destruct (release_state F flags outlvl m2) as [[[]|e] m4] eqn:Hrel;
      [|discriminate].
    intros E. injection E as <-.
    exists flags, m1, m2, [warning incomplete_msg].
    cbv beta iota zeta; cbn [model trace]. repeat split; auto.
Qed.

End InitializeBuildFacts.

(** ** Runs of [initialize_build] on the scenario plants *)

Section ScenarioRuns.
Import Init Init.Scenario.
Local Open Scope string_scope.

(** A linked plant whose solve ends infeasible, and an unlinked plant. *)
Lemma C8_scenario_runs :
  get_solver framework None None = Returned "ipopt"
  /\ (forall p, properties_in_initialize framework 0 None None None true p
                = (Returned (inlet_fixed p), held p))
  /\ (forall p, properties_out_initialize framework 0 None None None p
                = (Returned tt, p))
  /\ model_degrees_of_freedom framework (held infeasible_plant) = 0%Z
  /\ model_degrees_of_freedom framework (held unlinked_plant) <> 0%Z
  /\ (run (initialize_build framework None None 0 None None) infeasible_plant
      = (Returned tt,
         Build_state framework infeasible_plant
           [got_solver; @initialized_in framework true false;
            initialized_out; @solved framework (report infeasible_plant);
            info (complete_msg framework (report infeasible_plant));
            @released framework false]))
  /\ (run (initialize_build framework None None 0 None None) unlinked_plant
      = (Returned tt,
         Build_state framework unlinked_plant
           [got_solver; @initialized_in framework true false;
            initialized_out; warning incomplete_msg;
            @released framework false])).
Proof.
  assert (Hdof : model_degrees_of_freedom framework (held unlinked_plant)
                 <> 0%Z) by (vm_compute; discriminate).
  do 4 (split; [reflexivity|]). split; [exact Hdof|]. split.
  - pose proof (C8_solve_once_or_warn framework None None None 0%Z None
                  infeasible_plant (held infeasible_plant)
                  (held infeasible_plant) "ipopt" false
                  eq_refl eq_refl eq_refl) as [H _].
    exact (proj1 (H eq_refl (report infeasible_plant)
                    (held infeasible_plant) infeasible_plant
                    eq_refl eq_refl)).
  - pose proof (C8_solve_once_or_warn framework None None None 0%Z None
                  unlinked_plant (held unlinked_plant)
                  (held unlinked_plant) "ipopt" false
                  eq_refl eq_refl eq_refl) as [_ H].
    exact (proj1 (H Hdof unlinked_plant eq_refl)).
Defined.

Lemma C9_scenario_run :
  let s := Build_state framework unlinked_plant
             [got_solver; @initialized_in framework true false;
              initialized_out; warning incomplete_msg;
              @released framework false] in
  run (initialize_build framework None None 0 None None) unlinked_plant
  = (Returned tt, s)
  /\ exists (flags : bool) (m1 m3 : plant) (branch : list (event framework)),
      fix_inlet true unlinked_plant = (Returned flags, m1)
      /\ trace s
         = ([got_solver; @initialized_in framework true flags;
             initialized_out]
            ++ branch ++ [@released framework flags])%list
      /\ ((exists res : string,
             branch = [@solved framework res;
                       info (complete_msg framework res)])
          \/ branch = [warning incomplete_msg])
      /\ revert_inlet flags m3 = (Returned tt, unlinked_plant).
Proof.
  intros s. split; [reflexivity|].
  exact (C9_flags_released framework None None None 0%Z None unlinked_plant
           s eq_refl).
Defined.

End ScenarioRuns.

(** ** Index sets of the declared constraints *)

Lemma getitem_None_iff {I A} (eqb : I -> I -> bool)
    (eqb_spec : forall a b, reflect (a = b) (eqb a b))
    (rule : I -> A) (index_set : list I) (i : I) :
  getitem eqb (declare index_set rule) i = None <-> ~ In i index_set.
Proof.
  split.
  - intros HN Hin. rewrite (getitem_declare eqb eqb_spec rule _ _ Hin) in HN.
    discriminate HN.
  - apply getitem_declare_None, eqb_spec.
Qed.

(** X1: looking a constraint up fails exactly outside its index set.  Each
    of the eleven components indexed by time has no entry at [t] exactly
    when [t] is not in the time set of the flowsheet, and
    [return_zero_flow_comp] has no entry at [(t, i)] exactly when [t] is not
    in the time set or [i] is not one of the five zero-flow components. *)
Theorem X1_lookup_fails_outside_index_set
    (flowsheet_time : list time) (t : time) (i : string) :
  Forall (fun c => getitem Z.eqb c t = None <-> ~ In t flowsheet_time)
         (time_indexed (Translator.build flowsheet_time))
  /\ (getitem time_comp_eqb
        (Translator.blk_return_zero_flow_comp
           (Translator.build flowsheet_time)) (t, i) = None
      <-> ~ (In t flowsheet_time /\ In i Translator.zero_flow_components)).
Proof.
  split.
  - unfold time_indexed, Translator.build.
    cbn [Translator.blk_eq_flow_vol_rule Translator.blk_eq_temperature_rule
         Translator.blk_eq_pressure_rule Translator.blk_eq_SI_conc
         Translator.blk_eq_XI_conc Translator.blk_eq_SS_conc
         Translator.blk_eq_XS_conc Translator.blk_eq_Snh_conc
         Translator.blk_eq_Snd_conc Translator.blk_eq_Xnd_conc
         Translator.blk_return_Salk].
    repeat (constructor; [apply getitem_None_iff, Z.eqb_spec|]).
    constructor.
  - cbn [Translator.build Translator.blk_return_zero_flow_comp].
    rewrite (getitem_None_iff time_comp_eqb time_comp_eqb_spec).
    rewrite in_prod_iff. reflexivity.
Qed.

(** ** Consequences for a state that satisfies the constraints *)

Lemma translate_keeps_inlet (pv : param_values) (env : var_values) (x : var) :
  var_block x = properties_in -> translate pv env x = env x.
Proof. destruct x; cbn; intros ->; reflexivity. Qed.

Lemma satisfying_state_is_translate
    (flowsheet_time : list time) (pv : param_values) (env : var_values) :
  Forall (holds pv env)
    (Translator.activated_equalities (Translator.build flowsheet_time)) ->
  forall x, In x (outlet_state flowsheet_time) ->
            env x == translate pv env x.
Proof.
  intros Hsat x Hx.
  pose proof (build_explicit flowsheet_time) as Hex.
  apply (explicit_solution_unique _ _ Hex pv env (translate pv env)).
  - intros y Hy. rewrite (translate_keeps_inlet pv env y Hy). reflexivity.
  - exact Hsat.
  - apply build_satisfied.
  - unfold variables_in_activated_equalities. rewrite nodup_In.
    exact (proj1 (defined_occurs _ _ Hex x Hx)).
Qed.

Ltac family_member :=
  apply in_map_iff;
  first [eexists; split; [reflexivity|eassumption]
        |eexists (_, _); split;
         [reflexivity|apply in_prod; [eassumption|cbn; auto 30]]].

Ltac in_families :=
  repeat first [apply in_or_app; left; solve [family_member]
               |apply in_or_app; right];
  solve [family_member].

Lemma Qplus_nonneg (a b : Q) : 0 <= a -> 0 <= b -> 0 <= a + b.
Proof.
  intros Ha Hb. setoid_replace 0 with (0 + 0) by ring.
  apply Qplus_le_compat; assumption.
Qed.

(** X2: in a state that satisfies the constraints of [build], at every time
    index of the flowsheet the seven outlet concentrations [S_I], [S_S],
    [X_I], [X_S], [X_BH], [X_BA], [X_P] add up to the twenty inlet
    concentrations that are passed through or lumped ([S_I], [X_I], the
    seven readily and the eleven slowly biodegradable ones) plus the three
    floors of [1e-6]. *)
Theorem X2_outlet_total_is_inlet_total_plus_floors
    (flowsheet_time : list time) (t : time)
    (pv : param_values) (env : var_values) :
  In t flowsheet_time ->
  Forall (holds pv env)
    (Translator.activated_equalities (Translator.build flowsheet_time)) ->
  let outlet j := env (conc_mass_comp properties_out t j) in
  let inlet j := env (conc_mass_comp properties_in t j) in
  (outlet "S_I" + outlet "S_S" + outlet "X_I" + outlet "X_S"
   + outlet "X_BH" + outlet "X_BA" + outlet "X_P")%string
  == (inlet "S_I" + inlet "X_I"
      + (inlet "S_su" + inlet "S_aa" + inlet "S_fa" + inlet "S_va"
         + inlet "S_bu" + inlet "S_pro" + inlet "S_ac")
      + (inlet "X_c" + inlet "X_ch" + inlet "X_pr" + inlet "X_li"
         + inlet "X_su" + inlet "X_aa" + inlet "X_fa" + inlet "X_c4"
         + inlet "X_pro" + inlet "X_ac" + inlet "X_h2"))%string
     + 3 * 1e-6.
Proof.
  intros Ht Hsat outlet inlet. subst outlet inlet. cbv beta.
  pose proof (satisfying_state_is_translate flowsheet_time pv env Hsat) as Hsol.
  rewrite (Hsol (conc_mass_comp properties_out t "S_I"))
    by (unfold outlet_state; in_families).
  rewrite (Hsol (conc_mass_comp properties_out t "S_S"))
    by (unfold outlet_state; in_families).
  rewrite (Hsol (conc_mass_comp properties_out t "X_I"))
    by (unfold outlet_state; in_families).
  rewrite (Hsol (conc_mass_comp properties_out t "X_S"))
    by (unfold outlet_state; in_families).
  rewrite (Hsol (conc_mass_comp properties_out t "X_BH"))
    by (unfold outlet_state; in_families).
  rewrite (Hsol (conc_mass_comp properties_out t "X_BA"))
    by (unfold outlet_state; in_families).
  rewrite (Hsol (conc_mass_comp properties_out t "X_P"))
    by (unfold outlet_state; in_families).
  cbn. ring.
Qed.

Lemma X2_steady_state :
  let env := translate Translator.initialize (fun _ => 1) in
  In 0%Z [0%Z]
  /\ Forall (holds Translator.initialize env)
       (Translator.activated_equalities (Translator.build [0%Z]))
  /\ (env (conc_mass_comp properties_out 0%Z "S_I")
      + env (conc_mass_comp properties_out 0%Z "S_S")
      + env (conc_mass_comp properties_out 0%Z "X_I")
      + env (conc_mass_comp properties_out 0%Z "X_S")
      + env (conc_mass_comp properties_out 0%Z "X_BH")
      + env (conc_mass_comp properties_out 0%Z "X_BA")
      + env (conc_mass_comp properties_out 0%Z "X_P"))%string
     == 20 + 3 * 1e-6.
Proof.
  intros env.
  assert (H0 : In 0%Z [0%Z]) by (left; reflexivity).
  assert (Hsat : Forall (holds Translator.initialize env)
                   (Translator.activated_equalities (Translator.build [0%Z])))
    by apply build_satisfied.
  split; [exact H0|]. split; [exact Hsat|].
  rewrite (X2_outlet_total_is_inlet_total_plus_floors
             [0%Z] 0%Z Translator.initialize env H0 Hsat).
  reflexivity.
Defined.

Lemma Xnd_nonneg (nbac ni naa iec s xi xc xpr : Q) :
  0 <= nbac -> 0 <= ni -> 0 <= naa -> iec <= 1 ->
  0 <= s -> 0 <= xi -> 0 <= xc -> 0 <= xpr ->
  0 <= nbac * s + ni * xi + ni * xc + naa * xpr - xi * ni * iec.
Proof.
  intros Hb Hi Ha He Hs Hxi Hxc Hxpr.
  setoid_replace (nbac * s + ni * xi + ni * xc + naa * xpr - xi * ni * iec)
    with (nbac * s + ni * xc + naa * xpr + xi * ni * (1 - iec)) by ring.
  repeat apply Qplus_nonneg; try (apply Qmult_le_0_compat; assumption).
  apply Qmult_le_0_compat; [apply Qmult_le_0_compat; assumption|].
  setoid_replace 0 with (iec - iec) by ring.
  unfold Qminus. apply Qplus_le_compat; [exact He|apply Qle_refl].
Qed.

(** X3: when every inlet value is non-negative, the nitrogen contents
    [N_I], [N_aa], [N_bac] are non-negative and [i_ec] is at most 1, every
    outlet variable is non-negative in any state that satisfies the
    constraints of [build]. *)
Theorem X3_outlet_nonnegative
    (flowsheet_time : list time) (pv : param_values) (env : var_values) :
  (forall x, var_block x = properties_in -> 0 <= env x) ->
  0 <= pv N_I -> 0 <= pv N_aa -> 0 <= pv N_bac -> pv i_ec <= 1 ->
  Forall (holds pv env)
    (Translator.activated_equalities (Translator.build flowsheet_time)) ->
  forall x, In x (outlet_state flowsheet_time) -> 0 <= env x.
Proof.
  intros Hin HI Haa Hbac Hec Hsat x Hx.
  rewrite (satisfying_state_is_translate flowsheet_time pv env Hsat x Hx).
  assert (Hc : forall t j, 0 <= env (conc_mass_comp properties_in t j))
    by (intros; apply Hin; reflexivity).
  unfold outlet_state in Hx.
  repeat (apply in_app_or in Hx; destruct Hx as [Hx|Hx]);
    apply in_map_iff in Hx; destruct Hx as (t & <- & Ht); cbn;
    try (apply Hin; reflexivity);
    try (repeat apply Qplus_nonneg; solve [apply Hc|apply Qle_refl]).
  - apply Qmult_le_0_compat; [apply Hc|apply Qplus_nonneg; assumption].
  - apply Xnd_nonneg; try assumption; try apply Hc.
    repeat apply Qplus_nonneg; apply Hc.
  - destruct t as [t j]. apply in_prod_iff in Ht. destruct Ht as [_ Hj].
    cbn in Hj. cbn [fst snd].
    repeat (destruct Hj as [<-|Hj]; [cbn; discriminate|]). contradiction.
Qed.

Lemma X3_steady_state :
  let env := translate Translator.initialize (fun _ => 1) in
  (forall x, var_block x = properties_in -> 0 <= env x)
  /\ 0 <= Translator.initialize N_I /\ 0 <= Translator.initialize N_aa
  /\ 0 <= Translator.initialize N_bac /\ Translator.initialize i_ec <= 1
  /\ In (conc_mass_comp properties_out 0%Z "X_ND"%string) (outlet_state [0%Z])
  /\ 0 <= env (conc_mass_comp properties_out 0%Z "X_ND"%string).
Proof.
  intros env.
  assert (Hin : forall x, var_block x = properties_in -> 0 <= env x).
  { intros x Hx. subst env. rewrite (translate_keeps_inlet _ _ x Hx).
    discriminate. }
  assert (HI : 0 <= Translator.initialize N_I) by discriminate.
  assert (Haa : 0 <= Translator.initialize N_aa) by discriminate.
  assert (Hbac : 0 <= Translator.initialize N_bac) by discriminate.
  assert (Hec : Translator.initialize i_ec <= 1) by discriminate.
  assert (Hx : In (conc_mass_comp properties_out 0%Z "X_ND"%string)
                  (outlet_state [0%Z])) by (cbn; auto 20).
  repeat (split; [assumption|]).
  exact (X3_outlet_nonnegative [0%Z] Translator.initialize env
           Hin HI Haa Hbac Hec (build_satisfied [0%Z] _ _) _ Hx).
Defined.

(** X4: the bound on [i_ec] is needed.  When [N_I] is positive and [i_ec]
    exceeds 1 there is a state with a non-negative inlet that satisfies the
    constraints of [build] and whose outlet [X_ND] is negative. *)
Theorem X4_Xnd_negative_when_i_ec_exceeds_one
    (flowsheet_time : list time) (t : time) (pv : param_values) :
  0 < pv N_I -> 1 < pv i_ec ->
  exists env : var_values,
    (forall x, var_block x = properties_in -> 0 <= env x)
    /\ Forall (holds pv env)
         (Translator.activated_equalities (Translator.build flowsheet_time))
    /\ env (conc_mass_comp properties_out t "X_ND"%string) < 0.
Proof.
  intros HI Hec.
  set (inlet := fun x =>
         match x with
         | conc_mass_comp properties_in _ j =>
             if String.eqb j "X_I" then 1 else 0
         | _ => 0
         end).
  exists (translate pv inlet). split; [|split].
  - intros x Hx. rewrite (translate_keeps_inlet _ _ x Hx).
    destruct x as [b u|b u|b u|b u|b u j]; cbn; try discriminate.
    destruct b; [|discriminate]. destruct (String.eqb j "X_I"); discriminate.
  - apply build_satisfied.
  - cbn.
    setoid_replace
      (pv N_bac * (0 + 0 + 0 + 0 + 0 + 0 + 0) + pv N_I * 1 + pv N_I * 0
       + pv N_aa * 0 - 1 * pv N_I * pv i_ec)
      with (- (pv N_I * (pv i_ec - 1))) by ring.
    setoid_replace 0 with (- 0) by ring.
    apply Qopp_lt_compat.
    apply Qmult_lt_0_compat; [exact HI|].
    setoid_replace 0 with (1 - 1) by ring. unfold Qminus.
    apply Qplus_lt_le_compat; [exact Hec|apply Qle_refl].
Qed.

Lemma X4_i_ec_two :
  let pv := fun p => match p with i_ec => 2 | _ => Translator.initialize p end in
  0 < pv N_I /\ 1 < pv i_ec
  /\ exists env : var_values,
      (forall x, var_block x = properties_in -> 0 <= env x)
      /\ Forall (holds pv env)
           (Translator.activated_equalities (Translator.build [0%Z]))
      /\ env (conc_mass_comp properties_out 0%Z "X_ND"%string) < 0.
Proof.
  intros pv.
  assert (HI : 0 < pv N_I) by reflexivity.
  assert (Hec : 1 < pv i_ec) by reflexivity.
  split; [exact HI|]. split; [exact Hec|].
  exact (X4_Xnd_negative_when_i_ec_exceeds_one [0%Z] 0%Z pv HI Hec).
Defined.

(** ** The variables the constraints mention *)

Lemma declared_member {I} (index_set : list I) (rule : I -> relational) (i : I) :
  In i index_set -> In (rule i) (map snd (declare index_set rule)).
Proof.
  intros Hi. unfold declare. rewrite map_map. cbn [snd].
  apply in_map_iff. exists i. split; [reflexivity|exact Hi].
Qed.

Lemma declared_member_inv {I} (index_set : list I) (rule : I -> relational)
    (c : relational) :
  In c (map snd (declare index_set rule)) ->
  exists i, In i index_set /\ c = rule i.
Proof.
  unfold declare. rewrite map_map. cbn [snd]. intros Hc.
  apply in_map_iff in Hc. destruct Hc as (i & <- & Hi). exists i. auto.
Qed.

Ltac in_tree :=
  first [solve [family_member]
        |apply in_or_app; first [solve [left; in_tree]|right; in_tree]].

Ltac in_constraints :=
  unfold Translator.activated_equalities, Translator.build;
  cbn [Translator.blk_eq_flow_vol_rule Translator.blk_eq_temperature_rule
       Translator.blk_eq_pressure_rule Translator.blk_eq_SI_conc
       Translator.blk_eq_XI_conc Translator.blk_eq_SS_conc
       Translator.blk_eq_XS_conc Translator.blk_eq_Snh_conc
       Translator.blk_eq_Snd_conc Translator.blk_eq_Xnd_conc
       Translator.blk_return_Salk Translator.blk_return_zero_flow_comp];
  repeat first [apply in_or_app; left;
                solve [apply declared_member; eassumption]
               |apply in_or_app; right];
  solve [apply declared_member; eassumption].

Ltac read_by rule :=
  solve [apply in_flat_map; exists rule;
         split; [in_constraints|cbn; auto 30]].

Lemma mentioned_in_state (flowsheet_time : list time) (x : var) :
  In x (flat_map relational_vars
          (Translator.activated_equalities (Translator.build flowsheet_time))) ->
  In x (inlet_state_read flowsheet_time ++ outlet_state flowsheet_time).
Proof.
  intros Hx. apply in_flat_map in Hx. destruct Hx as (c & Hc & Hx).
  unfold Translator.activated_equalities, Translator.build in Hc.
  cbn [Translator.blk_eq_flow_vol_rule Translator.blk_eq_temperature_rule
       Translator.blk_eq_pressure_rule Translator.blk_eq_SI_conc
       Translator.blk_eq_XI_conc Translator.blk_eq_SS_conc
       Translator.blk_eq_XS_conc Translator.blk_eq_Snh_conc
       Translator.blk_eq_Snd_conc Translator.blk_eq_Xnd_conc
       Translator.blk_return_Salk Translator.blk_return_zero_flow_comp] in Hc.
  unfold inlet_state_read, outlet_state.
  repeat (apply in_app_or in Hc; destruct Hc as [Hc|Hc]);
    apply declared_member_inv in Hc; destruct Hc as (t & Ht & ->);
    try (destruct t as [t j]; apply in_prod_iff in Ht; destruct Ht as [Ht Hj]);
    cbn in Hx;
    repeat (destruct Hx as [<-|Hx]; [in_tree|]); contradiction.
Qed.

Lemma inlet_state_is_read (flowsheet_time : list time) (x : var) :
  In x (inlet_state_read flowsheet_time) ->
  var_block x = properties_in
  /\ In x (flat_map relational_vars
             (Translator.activated_equalities
                (Translator.build flowsheet_time))).
Proof.
  intros Hx. unfold inlet_state_read in Hx.
  repeat (apply in_app_or in Hx; destruct Hx as [Hx|Hx]);
    apply in_map_iff in Hx; destruct Hx as (t & <- & Ht);
    (split; [reflexivity|]).
  - read_by (Translator.eq_flow_vol_rule t).
  - read_by (Translator.eq_temperature_rule t).
  - read_by (Translator.eq_pressure_rule t).
  - destruct t as [t j]. apply in_prod_iff in Ht. destruct Ht as [Ht Hj].
    cbn in Hj. cbn [fst snd].
    repeat (destruct Hj as [<-|Hj];
            [first [read_by (Translator.eq_SI_conc t)
                   |read_by (Translator.eq_XI_conc t)
                   |read_by (Translator.eq_SS_conc t)
                   |read_by (Translator.eq_XS_conc t)
                   |read_by (Translator.eq_Snh_conc t)
                   |read_by (Translator.return_Salk t)]|]).
    contradiction.
Qed.

Lemma mentioned_iff (flowsheet_time : list time) (x : var) :
  In x (variables_in_activated_equalities
          (Translator.activated_equalities (Translator.build flowsheet_time)))
  <-> In x (inlet_state_read flowsheet_time ++ outlet_state flowsheet_time).
Proof.
  unfold variables_in_activated_equalities. rewrite nodup_In. split.
  - apply mentioned_in_state.
  - intros Hx. apply in_app_or in Hx. destruct Hx as [Hx|Hx].
    + exact (proj2 (inlet_state_is_read flowsheet_time x Hx)).
    + exact (proj1 (defined_occurs _ _ (build_explicit flowsheet_time) x Hx)).
Qed.

Lemma eval_agree (pv : param_values) (env1 env2 : var_values) (e : expr) :
  Forall (fun y => env1 y == env2 y) (expr_vars e) ->
  eval pv env1 e == eval pv env2 e.
Proof.
  induction e as [q|x|p|a IHa b IHb|a IHa b IHb|a IHa b IHb];
    cbn [expr_vars eval]; intros Hv;
    try (apply Forall_app in Hv; destruct Hv as [Ha Hb];
         rewrite (IHa Ha), (IHb Hb)); try reflexivity.
  inversion Hv; assumption.
Qed.

Lemma outlet_state_block (flowsheet_time : list time) (x : var) :
  In x (outlet_state flowsheet_time) -> var_block x = properties_out.
Proof.
  intros Hx.
  exact (proj2 (defined_occurs _ _ (build_explicit flowsheet_time) x Hx)).
Qed.

(** X5: the constraints of [build] mention exactly the variables of
    [inlet_state_read] and [outlet_state]: of the inlet only [flow_vol],
    [temperature], [pressure] and the concentrations of the 22 components
    of [inlet_components_read].  Hence two states that satisfy the
    constraints and agree on those inlet variables have the same outlet
    state, whatever else differs in the inlet. *)
Theorem X5_outlet_depends_on_inlet_read_only (flowsheet_time : list time) :
  let cs := Translator.activated_equalities (Translator.build flowsheet_time) in
  (forall x, In x (variables_in_activated_equalities cs)
             <-> In x (inlet_state_read flowsheet_time
                       ++ outlet_state flowsheet_time))
  /\ (forall pv env1 env2,
        (forall x, In x (inlet_state_read flowsheet_time) ->
                   env1 x == env2 x) ->
        Forall (holds pv env1) cs -> Forall (holds pv env2) cs ->
        forall x, In x (outlet_state flowsheet_time) -> env1 x == env2 x).
Proof.
  intros cs. subst cs. split; [apply mentioned_iff|].
  intros pv env1 env2 Hagree H1 H2 x Hx.
  pose proof (build_explicit flowsheet_time) as Hex.
  destruct (defined_occurs _ _ Hex x Hx) as [Hocc Hout].
  destruct (outlet_occurrence_defined _ _ Hex x Hocc Hout) as (r & Hc & Hr).
  rewrite Forall_forall in H1, H2.
  pose proof (H1 _ Hc) as E1. pose proof (H2 _ Hc) as E2. cbn in E1, E2.
  rewrite E1, E2. apply eval_agree.
  rewrite Forall_forall in Hr |- *. intros y Hy. apply Hagree.
  assert (Hm : In y (inlet_state_read flowsheet_time
                     ++ outlet_state flowsheet_time)).
  { apply mentioned_in_state. apply in_flat_map.
    exists (Equality (V x) r). split; [exact Hc|].
    cbn. right. exact Hy. }
  apply in_app_or in Hm. destruct Hm as [Hm|Hm]; [exact Hm|].
  apply outlet_state_block in Hm. rewrite (Hr y Hy) in Hm. discriminate Hm.
Qed.

(** ** Degrees of freedom for any choice of fixed variables *)

Lemma inlet_state_read_NoDup (flowsheet_time : list time) :
  NoDup flowsheet_time -> NoDup (inlet_state_read flowsheet_time).
Proof.
  intros Hnd. unfold inlet_state_read.
  repeat (apply NoDup_app;
          [apply Injective_map_NoDup;
           [intros x y E; injection E; auto|exact Hnd]
          |
          |let a := fresh "a" in
           let H1 := fresh "H" in
           let H2 := fresh "H" in
           intros a H1 H2; in_family H1; subst a;
           repeat (apply in_app_or in H2; destruct H2 as [H2|H2]);
           apply in_map_iff in H2; destruct H2 as (? & ? & _);
           discriminate]).
  apply Injective_map_NoDup.
  - intros [t i] [t' i'] E. cbn in E. injection E as -> ->. reflexivity.
  - apply NoDup_list_prod; [exact Hnd|].
    unfold inlet_components_read, Translator.readily_biodegradable,
      Translator.slowly_biodegradable. cbn [app].
    repeat (constructor; [cbn; intuition discriminate|]). constructor.
Qed.

Lemma state_NoDup (flowsheet_time : list time) :
  NoDup flowsheet_time ->
  NoDup (inlet_state_read flowsheet_time ++ outlet_state flowsheet_time).
Proof.
  intros Hnd. apply NoDup_app.
  - apply inlet_state_read_NoDup, Hnd.
  - apply outlet_state_NoDup, Hnd.
  - intros x Hi Ho. apply inlet_state_is_read in Hi. destruct Hi as [Hi _].
    apply outlet_state_block in Ho. congruence.
Qed.

(** X6: for a time set without repetition and any choice of fixed
    variables, the degrees of freedom of the constraints of [build] are the
    number of unfixed variables among [inlet_state_read] minus the number
    of fixed variables among [outlet_state]; with nothing fixed that is 25
    per time index. *)
Theorem X6_degrees_of_freedom_formula
    (flowsheet_time : list time) (fixed : var -> bool) :
  NoDup flowsheet_time ->
  let cs := Translator.activated_equalities (Translator.build flowsheet_time) in
  degrees_of_freedom fixed cs
  = (Z.of_nat (List.length (filter (fun x => negb (fixed x))
                              (inlet_state_read flowsheet_time)))
     - Z.of_nat (List.length (filter fixed (outlet_state flowsheet_time))))%Z
  /\ degrees_of_freedom (fun _ => false) cs
     = (25 * Z.of_nat (List.length flowsheet_time))%Z.
Proof.
  intros Hnd cs. subst cs.
  assert (F : forall fx : var -> bool,
             degrees_of_freedom fx
               (Translator.activated_equalities
                  (Translator.build flowsheet_time))
             = (Z.of_nat (List.length (filter (fun x => negb (fx x))
                                         (inlet_state_read flowsheet_time)))
                - Z.of_nat (List.length
                              (filter fx (outlet_state flowsheet_time))))%Z).
  { intros fx. unfold degrees_of_freedom.
    assert (E : List.length
                  (unfixed_variables_in_activated_equalities fx
                     (Translator.activated_equalities
                        (Translator.build flowsheet_time)))
                = List.length
                    (filter (fun x => negb (fx x))
                       (inlet_state_read flowsheet_time
                        ++ outlet_state flowsheet_time))).
    { apply Permutation_length, NoDup_Permutation.
      - apply NoDup_filter, NoDup_nodup.
      - apply NoDup_filter, state_NoDup, Hnd.
      - intros x. unfold unfixed_variables_in_activated_equalities.
        rewrite !filter_In, mentioned_iff. reflexivity. }
    rewrite E, filter_app, length_app.
    rewrite (Forall2_length (build_explicit flowsheet_time)).
    pose proof (filter_length fx (outlet_state flowsheet_time)). lia. }
  split; [apply F|]. rewrite F.
  assert (Hall : forall l : list var, filter (fun _ => negb false) l = l).
  { induction l as [|a l IH]; cbn; [reflexivity|]. f_equal. exact IH. }
  assert (Hnone : forall l : list var, filter (fun _ => false) l = []).
  { induction l as [|a l IH]; cbn; [reflexivity|]. exact IH. }
  rewrite Hall, Hnone. unfold inlet_state_read.
  rewrite !length_app, !length_map, length_prod.
  cbn [List.length inlet_components_read Translator.readily_biodegradable
       Translator.slowly_biodegradable app]. lia.
Qed.

Lemma X6_steady_state :
  NoDup [0%Z]
  /\ degrees_of_freedom (fun _ => false)
       (Translator.activated_equalities (Translator.build [0%Z])) = 25%Z.
Proof.
  assert (H : NoDup [0%Z]) by (constructor; [simpl; tauto|constructor]).
  split; [exact H|].
  exact (proj2 (X6_degrees_of_freedom_formula [0%Z] (fun _ => false) H)).
Defined.

(** ** Runs of [initialize_build] in which a collaborator raises *)

Section InitializeBuildFaults.
Import Init.

Variable F : Framework.
Variables state_args_in state_args_out optarg : option (Args F).
Variable outlvl : Z.
Variable solver : option string.

Let init := initialize_build F state_args_in state_args_out outlvl solver optarg.
Let init_in := properties_in_initialize F outlvl optarg solver state_args_in true.
Let init_out := properties_out_initialize F outlvl optarg solver state_args_out.

Ltac step_run :=
  cbv beta iota zeta; cbn [model trace app].

Ltac run_with H :=
  rewrite H; step_run.

(** X7: [initialize_build] wraps no call in [try].  Whichever collaborator
    call is the first to raise -- [get_solver], [properties_in.initialize],
    [properties_out.initialize], the solve, or [release_state] in either
    branch -- the run raises that same exception there, leaves the model
    that call left, and makes no further call.  So when
    [properties_out.initialize] or the solve raises, [release_state] is
    never called on the flags obtained from the inlet block; and no run
    that raises records a completed [release_state]. *)
Theorem X7_exception_propagates_without_release
    (m0 m1 m2 m : Model F) (opt : Solver F) (flags : Flags F) (e : exn) :
  (get_solver F solver optarg = Raised e ->
   run init m0
   = (Raised e, {| model := m0; trace := [raised to_get_solver e] |}))
  /\ (get_solver F solver optarg = Returned opt ->
      (init_in m0 = (Raised e, m) ->
       run init m0
       = (Raised e,
          {| model := m; trace := [got_solver; raised to_initialize_in e] |}))
      /\ (init_in m0 = (Returned flags, m1) ->
          (init_out m1 = (Raised e, m) ->
           run init m0
           = (Raised e,
              {| model := m;
                 trace := [got_solver; initialized_in true flags;
                           raised to_initialize_out e] |}))
          /\ (init_out m1 = (Returned tt, m2) ->
              (model_degrees_of_freedom F m2 = 0%Z ->
               solve F opt m2 = (Raised e, m) ->
               run init m0
               = (Raised e,
                  {| model := m;
                     trace := [got_solver; initialized_in true flags;
                               initialized_out; raised to_solve e] |}))
              /\ (model_degrees_of_freedom F m2 = 0%Z ->
                  forall res m3,
                    solve F opt m2 = (Returned res, m3) ->
                    release_state F flags outlvl m3 = (Raised e, m) ->
                    run init m0
                    = (Raised e,
                       {| model := m;
                          trace := [got_solver; initialized_in true flags;
                                    initialized_out; solved res;
                                    info (complete_msg F res);
                                    raised to_release_state e] |}))
              /\ (model_degrees_of_freedom F m2 <> 0%Z ->
                  release_state F flags outlvl m2 = (Raised e, m) ->
                  run init m0
                  = (Raised e,
                     {| model := m;
                        trace := [got_solver; initialized_in true flags;
                                  initialized_out; warning incomplete_msg;
                                  raised to_release_state e] |})))))
  /\ (forall (e' : exn) (s : state F),
        run init m0 = (Raised e', s) ->
        Forall (fun ev => is_released ev = false) (trace s)).
Proof.
  subst init init_in init_out.
  unfold run, initialize_build, bind, call, query, emit. step_run.
  split; [|split].
  - intros H. run_with H. reflexivity.
  - intros Hopt. run_with Hopt. split.
    + intros H. run_with H. reflexivity.
    + intros Hin. run_with Hin. split.
      * intros H. run_with H. reflexivity.
      * intros Hout. run_with Hout. split; [|split].
        -- intros Hdof H. rewrite Hdof. cbn [Z.eqb]. step_run.
           run_with H. reflexivity.
        -- intros Hdof res m3 Hs H. rewrite Hdof. cbn [Z.eqb]. step_run.
           run_with Hs. run_with H. reflexivity.
        -- intros Hdof H. apply Z.eqb_neq in Hdof. rewrite Hdof. step_run.
           run_with H. reflexivity.
  - intros e' s.
    destruct (get_solver F solver optarg) as [opt'|e0]; step_run.
    2:{ intros E. injection E as <- <-. repeat constructor. }
    destruct (properties_in_initialize F outlvl optarg solver state_args_in
                true m0) as [[flags'|e0] m1']; step_run.
    2:{ intros E. injection E as <- <-. repeat constructor. }
    destruct (properties_out_initialize F outlvl optarg solver state_args_out
                m1') as [[[]|e0] m2']; step_run.
    2:{ intros E. injection E as <- <-. repeat constructor. }
    destruct (model_degrees_of_freedom F m2' =? 0)%Z; step_run.
    + destruct (solve F opt' m2') as [[res|e0] m3]; step_run.
      2:{ intros E. injection E as <- <-. repeat constructor. }
      destruct (release_state F flags' outlvl m3) as [[[]|e0] m4];
        [discriminate|].
      intros E. injection E as <- <-. repeat constructor.
    + destruct (release_state F flags' outlvl m2') as [[[]|e0] m4];
        [discriminate|].
      intros E. injection E as <- <-. repeat constructor.
Qed.

(** X8: in every run of [initialize_build], returning or raising, the
    solver is invoked at most once -- counting the invocations that raise
    as well as those that return -- and it is invoked exactly when
    [get_solver] and both state-block initializations returned and
    [degrees_of_freedom] is zero on the model they left. *)
Theorem X8_at_most_one_solve (m0 : Model F) :
  let s := snd (run init m0) in
  (solves (trace s) <= 1)%nat
  /\ (solves (trace s) = 1%nat
      <-> exists opt flags m1 m2,
            get_solver F solver optarg = Returned opt
            /\ init_in m0 = (Returned flags, m1)
            /\ init_out m1 = (Returned tt, m2)
            /\ model_degrees_of_freedom F m2 = 0%Z).
Proof.
  subst init init_in init_out.
  unfold run, initialize_build, bind, call, query, emit. step_run.
  destruct (get_solver F solver optarg) as [opt|e0]; step_run.
  2:{ cbn. split; [lia|]. split; [discriminate|].
      intros (? & ? & ? & ? & H & _). discriminate H. }
  destruct (properties_in_initialize F outlvl optarg solver state_args_in
              true m0) as [[flags|e0] m1]; step_run.
  2:{ cbn. split; [lia|]. split; [discriminate|].
      intros (? & ? & ? & ? & _ & H & _). discriminate H. }
  destruct (properties_out_initialize F outlvl optarg solver state_args_out
              m1) as [[[]|e0] m2] eqn:Hout; step_run.
  2:{ cbn. split; [lia|]. split; [discriminate|].
      intros (? & ? & ? & ? & _ & H1 & H2 & _).
      injection H1 as <- <-. rewrite Hout in H2. discriminate H2. }
  destruct (model_degrees_of_freedom F m2 =? 0)%Z eqn:Hdof; step_run.
  - apply Z.eqb_eq in Hdof.
    assert (Hreach : exists opt' flags' m1' m2',
               Returned opt = Returned opt'
               /\ (Returned flags, m1) = (Returned flags', m1')
               /\ properties_out_initialize F outlvl optarg solver
                    state_args_out m1' = (Returned tt, m2')
               /\ model_degrees_of_freedom F m2' = 0%Z)
      by (exists opt, flags, m1, m2; auto).
    destruct (solve F opt m2) as [[res|e0] m3]; step_run.
    2:{ cbn. split; [lia|]. split; [intros _; exact Hreach|reflexivity]. }
    destruct (release_state F flags outlvl m3) as [[[]|e0] m4]; cbn;
      (split; [lia|split; [intros _; exact Hreach|reflexivity]]).
  - apply Z.eqb_neq in Hdof.
    assert (Hno : ~ exists opt' flags' m1' m2',
               Returned opt = Returned opt'
               /\ (Returned flags, m1) = (Returned flags', m1')
               /\ properties_out_initialize F outlvl optarg solver
                    state_args_out m1' = (Returned tt, m2')
               /\ model_degrees_of_freedom F m2' = 0%Z).
    { intros (? & ? & ? & ? & _ & H1 & H2 & H3).
      injection H1 as <- <-. rewrite Hout in H2. injection H2 as <-.
      contradiction. }
    destruct (release_state F flags outlvl m2) as [[[]|e0] m4]; cbn;
      (split; [lia|split; [discriminate|intros H; destruct (Hno H)]]).
Qed.

End InitializeBuildFaults.

Lemma X7_solver_crash :
  let e := Init.Exception "Solver (ipopt) did not exit normally" in
  let held := Init.Scenario.held Init.Scenario.infeasible_plant in
  Init.get_solver crashing_framework None None = Init.Returned "ipopt"%string
  /\ Init.properties_in_initialize crashing_framework 0 None None None true
       Init.Scenario.infeasible_plant = (Init.Returned false, held)
  /\ Init.properties_out_initialize crashing_framework 0 None None None held
     = (Init.Returned tt, held)
  /\ Init.model_degrees_of_freedom crashing_framework held = 0%Z
  /\ Init.solve crashing_framework "ipopt"%string held = (Init.Raised e, held)
  /\ Init.run (Init.initialize_build crashing_framework None None 0 None None)
       Init.Scenario.infeasible_plant
     = (Init.Raised e,
        Init.Build_state crashing_framework held
          [Init.got_solver;
           @Init.initialized_in crashing_framework true false;
           Init.initialized_out; Init.raised Init.to_solve e]).
Proof.
  intros e held. do 5 (split; [reflexivity|]).
  pose proof (X7_exception_propagates_without_release
                crashing_framework None None None 0%Z None
                Init.Scenario.infeasible_plant held held held
                "ipopt"%string false e) as (_ & H & _).
  destruct (H eq_refl) as (_ & H1). destruct (H1 eq_refl) as (_ & H2).
  exact (proj1 (H2 eq_refl) eq_refl eq_refl).
Defined.
